(** * ESPHome climate platform of Home Assistant

    A shallow embedding of [homeassistant/components/esphome/climate.py]:
    the two mode-translation tables, the property getters of
    [EsphomeClimateDevice] and its four command methods, followed by the
    properties the platform's description states about them. *)

From Stdlib Require Import ZArith Bool List Lia.
From Stdlib Require Import SpecFloat.
From stdpp Require Import base option list gmap strings.

Local Open Scope Z_scope.

(** ** Python floats

    A Python [float] is an IEEE 754 binary64 number.  It is modelled by the
    Standard Library's specification type [spec_float] at precision 53 and
    maximal exponent 1024; the values a device can deliver are those for
    which [valid_binary prec emax] holds. *)

Module PyFloat.

Definition float : Type := spec_float.

Definition prec : Z := 53.
Definition emax : Z := 1024.

Definition is_binary64 (x : float) : bool := valid_binary prec emax x.

(** [math.isnan] *)
Definition isnan (x : float) : bool :=
  match x with
  | S754_nan => true
  | _ => false
  end.

(** The comparison operators of Python on floats: every comparison with a
    NaN operand is false. *)
Definition ge (x y : float) : bool := SFleb y x.
Definition le (x y : float) : bool := SFleb x y.
Definition lt (x y : float) : bool := SFltb x y.

(** Nearest integer to [n / d] (for [0 < d]), ties to the even one. *)
Definition Zround_half_even (n d : Z) : Z :=
  let q := n / d in
  match Z.compare (2 * (n mod d)) d with
  | Lt => q
  | Gt => q + 1
  | Eq => if Z.even q then q else q + 1
  end.

(** The magnitude [m * 2^e] scaled by [10^ndigits] and rounded to an
    integer, as the decimal conversion of [round] does on the exact value
    of the float. *)
Definition scaled_digits (m : positive) (e : Z) (ndigits : N) : Z :=
  let p := 10 ^ Z.of_N ndigits in
  if 0 <=? e then Z.pos m * 2 ^ e * p
  else Zround_half_even (Z.pos m * p) (2 ^ (- e)).

(** The builtin [round(x, ndigits)] on a float, for [0 <= ndigits]: NaN,
    infinities and zeros round to themselves; a finite [x] is rounded,
    exactly, to the nearest decimal with [ndigits] fractional digits (ties
    to even), and that decimal is converted back to the nearest float. *)
Definition round (x : float) (ndigits : N) : float :=
  match x with
  | S754_finite s m e =>
      match scaled_digits m e ndigits with
      | Z.pos n =>
          SFdiv prec emax (S754_finite s n 0)
                (S754_finite false (Z.to_pos (10 ^ Z.of_N ndigits)) 0)
      | _ => S754_zero s
      end
  | _ => x
  end.

End PyFloat.

Abbreviation float := PyFloat.float.

(** ** The data model of the device API client

    [ClimateMode], [ClimateInfo] and [ClimateState] are the types of the
    [aioesphomeapi] client library the module imports; only the attributes
    that [climate.py] reads are kept. *)

Inductive ClimateMode : Type := OFF | AUTO | COOL | HEAT.

#[global] Instance ClimateMode_eq_dec : EqDecision ClimateMode.
Proof. solve_decision. Defined.

Definition ClimateMode_encode (m : ClimateMode) : nat :=
  match m with OFF => 0 | AUTO => 1 | COOL => 2 | HEAT => 3 end%nat.

Definition ClimateMode_decode (n : nat) : ClimateMode :=
  match n with 0 => OFF | 1 => AUTO | 2 => COOL | _ => HEAT end%nat.

#[global] Instance ClimateMode_countable : Countable ClimateMode.
Proof.
  apply (inj_countable' ClimateMode_encode ClimateMode_decode).
  intros []; reflexivity.
Defined.

(** Python values that occur as keyword arguments of the service calls and
    of the client's [climate_command]. *)
Inductive value : Type :=
| VNone
| VBool (b : bool)
| VInt (n : Z)
| VFloat (x : float)
| VStr (s : string)
| VMode (m : ClimateMode).

Module ClimateInfo.
Record t : Type := Build {
  key : Z;
  supports_two_point_target_temperature : bool;
  supported_modes : list ClimateMode;
  visual_min_temperature : float;
  visual_max_temperature : float;
  visual_temperature_step : float;
  supports_away : bool
}.
End ClimateInfo.

Module ClimateState.
Record t : Type := Build {
  mode : ClimateMode;
  current_temperature : float;
  target_temperature : float;
  target_temperature_low : float;
  target_temperature_high : float;
  away : bool
}.
End ClimateState.

(** The client is only ever asked to send a climate command; it is modelled
    by the sequence of keyword-argument dictionaries it was called with,
    oldest first. *)
Module APIClient.
Record t : Type := Build { commands : list (gmap string value) }.

Definition climate_command (c : t) (kwargs : gmap string value) : t :=
  {| commands := commands c ++ [kwargs] |}.
End APIClient.

(** Modelled from the spec: the base class [EsphomeEntity], which provides
    [_static_info], [_state] and [_client], is not among the sources.  The
    entity holds the static info (the capability descriptor received once
    from the device), the state (the mutable runtime snapshot, absent until
    the device has sent one) and the client the commands are dispatched to. *)
Record EsphomeClimateDevice : Type := {
  _static_info : ClimateInfo.t;
  _state : option ClimateState.t;
  _client : APIClient.t
}.

(** ** Exceptions and effects *)

Inductive exn : Type := KeyError (k : value).

Inductive result (A : Type) : Type :=
| Ok (a : A)
| Raise (e : exn).
Arguments Ok {A} a.
Arguments Raise {A} e.

#[global] Instance result_ret : MRet result := fun A a => Ok a.
#[global] Instance result_bind : MBind result := fun A B f r =>
  match r with
  | Ok a => f a
  | Raise e => Raise e
  end.

Definition result_to_option {A} (r : result A) : option A :=
  match r with
  | Ok a => Some a
  | Raise _ => None
  end.

(** A coroutine of the entity runs to completion against the entity; an
    exception keeps whatever had been done before it was raised. *)
Definition M (A : Type) : Type :=
  EsphomeClimateDevice -> result A * EsphomeClimateDevice.

#[global] Instance M_ret : MRet M := fun A a self => (Ok a, self).
#[global] Instance M_bind : MBind M := fun A B f m self =>
  match m self with
  | (Ok a, self') => f a self'
  | (Raise e, self') => (Raise e, self')
  end.

Definition get_self : M EsphomeClimateDevice := fun self => (Ok self, self).

Definition lift {A} (r : result A) : M A := fun self => (r, self).

(** [await self._client.climate_command( **data )] *)
Definition client_climate_command (data : gmap string value) : M unit :=
  fun self =>
    (Ok tt, {| _static_info := _static_info self;
               _state := _state self;
               _client := APIClient.climate_command (_client self) data |}).

(** ** Constants of the host framework *)

(** Modelled from the spec: [PRECISION_WHOLE] is a constant of
    [homeassistant.const], which is not among the sources; the description
    of the precision rule gives it the value 1.0. *)
Definition PRECISION_WHOLE : float := S754_finite false 4503599627370496 (-52).

(** Modelled from the spec: [PRECISION_HALVES] of [homeassistant.const],
    described as 0.5. *)
Definition PRECISION_HALVES : float := S754_finite false 4503599627370496 (-53).

(** Modelled from the spec: [PRECISION_TENTHS] of [homeassistant.const],
    described as 0.1, that is the binary64 number nearest to one tenth. *)
Definition PRECISION_TENTHS : float := S754_finite false 7205759403792794 (-56).

(** Feature flags are combined with [|]; the platform relies on their being
    non-zero masks without a common bit. *)
Fixpoint disjoint_flags (flags : list Z) : bool :=
  match flags with
  | [] => true
  | f :: rest =>
      negb (f =? 0) && forallb (fun g => Z.land f g =? 0) rest
      && disjoint_flags rest
  end.

(** [r] contains the flag [f] / has no bit of [f]. *)
Definition has_flag (r f : Z) : Prop := Z.land r f = f.
Definition lacks_flag (r f : Z) : Prop := Z.land r f = 0.

(** The values Home Assistant gives to the remaining imported constants.
    Their defining modules are not among the sources, so the platform below
    is stated over arbitrary constants and these serve as its instance. *)
Module HA.
Definition STATE_OFF : string := "off".
Definition STATE_AUTO : string := "auto".
Definition STATE_COOL : string := "cool".
Definition STATE_HEAT : string := "heat".
Definition ATTR_OPERATION_MODE : string := "operation_mode".
Definition ATTR_TEMPERATURE : string := "temperature".
Definition ATTR_TARGET_TEMP_LOW : string := "target_temp_low".
Definition ATTR_TARGET_TEMP_HIGH : string := "target_temp_high".
Definition TEMP_CELSIUS : string := "°C".
Definition SUPPORT_TARGET_TEMPERATURE : Z := 1.
Definition SUPPORT_TARGET_TEMPERATURE_HIGH : Z := 2.
Definition SUPPORT_TARGET_TEMPERATURE_LOW : Z := 4.
Definition SUPPORT_OPERATION_MODE : Z := 128.
Definition SUPPORT_AWAY_MODE : Z := 1024.
End HA.

(** Sample entities, used to run the platform on concrete inputs. *)
Module Sample.
(** The float nearest to the single-precision 0.1 a device reports. *)
Definition step_f32_tenth : float := S754_finite false 7205759511166976 (-56).

Definition info : ClimateInfo.t :=
  {| ClimateInfo.key := 7;
     ClimateInfo.supports_two_point_target_temperature := false;
     ClimateInfo.supported_modes := [OFF; HEAT; AUTO];
     ClimateInfo.visual_min_temperature := S754_finite false 5629499534213120 (-49);
     ClimateInfo.visual_max_temperature := S754_finite false 8444249301319680 (-48);
     ClimateInfo.visual_temperature_step := step_f32_tenth;
     ClimateInfo.supports_away := true |}.

(** A state whose current temperature has not been measured yet. *)
Definition state_nan : ClimateState.t :=
  {| ClimateState.mode := HEAT;
     ClimateState.current_temperature := S754_nan;
     ClimateState.target_temperature := S754_finite false 5910974510923776 (-48);
     ClimateState.target_temperature_low := S754_nan;
     ClimateState.target_temperature_high := S754_nan;
     ClimateState.away := false |}.

Definition client : APIClient.t := {| APIClient.commands := [] |}.

Definition dev : EsphomeClimateDevice :=
  {| _static_info := info; _state := Some state_nan; _client := client |}.

Definition dev_without_state : EsphomeClimateDevice :=
  {| _static_info := info; _state := None; _client := client |}.

Definition kwargs : gmap string value :=
  <[HA.ATTR_OPERATION_MODE := VStr HA.STATE_HEAT]>
    {[ HA.ATTR_TEMPERATURE :=
         VFloat (S754_finite false 6051711999279104 (-48)) ]}.
End Sample.

(** Further sample inputs. *)
Module Cases.
(** A two-point thermostat with a step of one half and no away mode. *)
Definition info_halves : ClimateInfo.t :=
  {| ClimateInfo.key := 11;
     ClimateInfo.supports_two_point_target_temperature := true;
     ClimateInfo.supported_modes := [OFF; COOL];
     ClimateInfo.visual_min_temperature := S754_finite false 5629499534213120 (-49);
     ClimateInfo.visual_max_temperature := S754_finite false 8444249301319680 (-48);
     ClimateInfo.visual_temperature_step := PRECISION_HALVES;
     ClimateInfo.supports_away := false |}.

Definition dev_halves : EsphomeClimateDevice :=
  {| _static_info := info_halves; _state := None; _client := Sample.client |}.

(** A device whose step is exactly one tenth. *)
Definition dev_tenths : EsphomeClimateDevice :=
  {| _static_info :=
       {| ClimateInfo.key := 12;
          ClimateInfo.supports_two_point_target_temperature := false;
          ClimateInfo.supported_modes := [];
          ClimateInfo.visual_min_temperature := S754_zero false;
          ClimateInfo.visual_max_temperature := S754_infinity false;
          ClimateInfo.visual_temperature_step := PRECISION_TENTHS;
          ClimateInfo.supports_away := false |};
     _state := None;
     _client := Sample.client |}.

(** The sample entity after one command has been sent for it. *)
Definition dev_after_command : EsphomeClimateDevice :=
  {| _static_info := Sample.info;
     _state := Some Sample.state_nan;
     _client :=
       {| APIClient.commands :=
            [ <["away" := VBool true]> {[ "key" := VInt 7 ]} ] |} |}.

(** Service data as the host passes it: the entity id comes with it. *)
Definition kwargs_with_entity_id : gmap string value :=
  <["entity_id" := VStr "climate.living_room"]> Sample.kwargs.

Definition kwargs_entity_id_only : gmap string value :=
  {[ "entity_id" := VStr "climate.living_room" ]}.

Definition kwargs_mode_only : gmap string value :=
  <["entity_id" := VStr "climate.living_room"]>
    {[ HA.ATTR_OPERATION_MODE := VStr HA.STATE_COOL ]}.
End Cases.

(** ** The platform *)

Section Platform.

Variables STATE_OFF STATE_AUTO STATE_COOL STATE_HEAT : string.
Variables ATTR_OPERATION_MODE ATTR_TEMPERATURE : string.
Variables ATTR_TARGET_TEMP_LOW ATTR_TARGET_TEMP_HIGH : string.
Variable TEMP_CELSIUS : string.
Variables SUPPORT_OPERATION_MODE SUPPORT_TARGET_TEMPERATURE : Z.
Variables SUPPORT_TARGET_TEMPERATURE_LOW SUPPORT_TARGET_TEMPERATURE_HIGH : Z.
Variable SUPPORT_AWAY_MODE : Z.

(** The mode strings of the host, in the order of the translation table. *)
Definition ha_modes : list string :=
  [STATE_OFF; STATE_AUTO; STATE_COOL; STATE_HEAT].

(** The dictionary literal of [_ha_climate_mode_to_esphome]; a later entry of
    a literal replaces an earlier one with an equal key. *)
Definition ha_to_esphome_table : gmap string ClimateMode :=
  <[STATE_HEAT := HEAT]>
    (<[STATE_COOL := COOL]>
       (<[STATE_AUTO := AUTO]>
          (<[STATE_OFF := OFF]> ∅))).

(** Subscripting the table: only a string can be equal to one of its keys,
    and a key that is not found raises [KeyError]. *)
Definition _ha_climate_mode_to_esphome (mode : value) : result ClimateMode :=
  match mode with
  | VStr s =>
      match ha_to_esphome_table !! s with
      | Some m => Ok m
      | None => Raise (KeyError mode)
      end
  | _ => Raise (KeyError mode)
  end.

Definition esphome_to_ha_table : gmap ClimateMode string :=
  <[HEAT := STATE_HEAT]>
    (<[COOL := STATE_COOL]>
       (<[AUTO := STATE_AUTO]>
          (<[OFF := STATE_OFF]> ∅))).

Definition _esphome_climate_mode_to_ha (mode : ClimateMode) : result string :=
  match esphome_to_ha_table !! mode with
  | Some s => Ok s
  | None => Raise (KeyError (VMode mode))
  end.

(** The [for] loop of [precision]: the first entry that the step reaches. *)
Fixpoint precision_loop (step : float) (precicions : list float)
  : option float :=
  match precicions with
  | [] => None
  | prec :: rest =>
      if PyFloat.ge step prec then Some prec else precision_loop step rest
  end.

Definition precision (self : EsphomeClimateDevice) : float :=
  let precicions := [PRECISION_WHOLE; PRECISION_HALVES; PRECISION_TENTHS] in
  match
    precision_loop
      (ClimateInfo.visual_temperature_step (_static_info self)) precicions
  with
  | Some prec => prec
  | None => PRECISION_TENTHS
  end.

Definition temperature_unit (self : EsphomeClimateDevice) : string :=
  TEMP_CELSIUS.

Definition operation_list (self : EsphomeClimateDevice)
  : result (list string) :=
  mapM _esphome_climate_mode_to_ha
       (ClimateInfo.supported_modes (_static_info self)).

Definition target_temperature_step (self : EsphomeClimateDevice) : float :=
  PyFloat.round (ClimateInfo.visual_temperature_step (_static_info self)) 1.

Definition min_temp (self : EsphomeClimateDevice) : float :=
  ClimateInfo.visual_min_temperature (_static_info self).

Definition max_temp (self : EsphomeClimateDevice) : float :=
  ClimateInfo.visual_max_temperature (_static_info self).

Definition supported_features (self : EsphomeClimateDevice) : Z :=
  let features := SUPPORT_OPERATION_MODE in
  let features :=
    if ClimateInfo.supports_two_point_target_temperature (_static_info self)
    then Z.lor features (Z.lor SUPPORT_TARGET_TEMPERATURE_LOW
                               SUPPORT_TARGET_TEMPERATURE_HIGH)
    else Z.lor features SUPPORT_TARGET_TEMPERATURE in
  let features :=
    if ClimateInfo.supports_away (_static_info self)
    then Z.lor features SUPPORT_AWAY_MODE
    else features in
  features.

Definition current_operation (self : EsphomeClimateDevice)
  : result (option string) :=
  match _state self with
  | None => Ok None
  | Some st =>
      s ← _esphome_climate_mode_to_ha (ClimateState.mode st); Ok (Some s)
  end.

Definition current_temperature (self : EsphomeClimateDevice) : option float :=
  match _state self with
  | None => None
  | Some st =>
      if PyFloat.isnan (ClimateState.current_temperature st) then None
      else Some (ClimateState.current_temperature st)
  end.

Definition target_temperature (self : EsphomeClimateDevice) : option float :=
  match _state self with
  | None => None
  | Some st =>
      if PyFloat.isnan (ClimateState.target_temperature st) then None
      else Some (ClimateState.target_temperature st)
  end.

Definition target_temperature_low (self : EsphomeClimateDevice)
  : option float :=
  match _state self with
  | None => None
  | Some st =>
      if PyFloat.isnan (ClimateState.target_temperature_low st) then None
      else Some (ClimateState.target_temperature_low st)
  end.

Definition target_temperature_high (self : EsphomeClimateDevice)
  : option float :=
  match _state self with
  | None => None
  | Some st =>
      if PyFloat.isnan (ClimateState.target_temperature_high st) then None
      else Some (ClimateState.target_temperature_high st)
  end.

Definition is_away_mode_on (self : EsphomeClimateDevice) : option bool :=
  match _state self with
  | None => None
  | Some st => Some (ClimateState.away st)
  end.

(** [if name in kwargs: data[field] = kwargs[name]] *)
Definition copy_kwarg (kwargs : gmap string value) (name field : string)
    (data : gmap string value) : gmap string value :=
  match kwargs !! name with
  | Some v => <[field := v]> data
  | None => data
  end.

Definition async_set_temperature (kwargs : gmap string value) : M unit :=
  self ← get_self;
  let data : gmap string value :=
    {[ "key" := VInt (ClimateInfo.key (_static_info self)) ]} in
  data ← match kwargs !! ATTR_OPERATION_MODE with
         | Some v =>
             m ← lift (_ha_climate_mode_to_esphome v);
             mret (<["mode" := VMode m]> data)
         | None => mret data
         end;
  let data := copy_kwarg kwargs ATTR_TEMPERATURE "target_temperature" data in
  let data :=
    copy_kwarg kwargs ATTR_TARGET_TEMP_LOW "target_temperature_low" data in
  let data :=
    copy_kwarg kwargs ATTR_TARGET_TEMP_HIGH "target_temperature_high" data in
  client_climate_command data.

Definition async_set_operation_mode (operation_mode : value) : M unit :=
  self ← get_self;
  m ← lift (_ha_climate_mode_to_esphome operation_mode);
  client_climate_command
    (<["mode" := VMode m]>
       {[ "key" := VInt (ClimateInfo.key (_static_info self)) ]}).

Definition async_turn_away_mode_on : M unit :=
  self ← get_self;
  client_climate_command
    (<["away" := VBool true]>
       {[ "key" := VInt (ClimateInfo.key (_static_info self)) ]}).

Definition async_turn_away_mode_off : M unit :=
  self ← get_self;
  client_climate_command
    (<["away" := VBool false]>
       {[ "key" := VInt (ClimateInfo.key (_static_info self)) ]}).

(** The mode arguments the first table knows. *)
Definition supported_mode (v : value) : Prop :=
  exists s : string, v = VStr s /\ s ∈ ha_modes.

(** Running a coroutine from [self] ended in [self'] having sent exactly the
    commands [cmds], in that order. *)
Definition sent (self self' : EsphomeClimateDevice)
    (cmds : list (gmap string value)) : Prop :=
  APIClient.commands (_client self') = APIClient.commands (_client self) ++ cmds.

(** The entity's stored static info and state were left as they were. *)
Definition unchanged (self self' : EsphomeClimateDevice) : Prop :=
  _static_info self' = _static_info self /\ _state self' = _state self.

(** The three guarded copies of [async_set_temperature]. *)
Definition copy_temperatures (kwargs data : gmap string value)
  : gmap string value :=
  copy_kwarg kwargs ATTR_TARGET_TEMP_HIGH "target_temperature_high"
    (copy_kwarg kwargs ATTR_TARGET_TEMP_LOW "target_temperature_low"
       (copy_kwarg kwargs ATTR_TEMPERATURE "target_temperature" data)).

(** The keyword arguments of a call: [data] holds, for each listed name,
    the listed value when there is one and no entry when there is none, and
    it holds no entry under any other name. *)
Definition keyword_arguments (data : gmap string value)
    (args : list (string * option value)) : Prop :=
  (forall (k : string) (v : option value), (k, v) ∈ args -> data !! k = v) /\
  (forall k : string, k ∉ args.*1 -> data !! k = None).

(** Two entities show the same properties to the host. *)
Definition same_properties (self self' : EsphomeClimateDevice) : Prop :=
  precision self' = precision self /\
  temperature_unit self' = temperature_unit self /\
  operation_list self' = operation_list self /\
  target_temperature_step self' = target_temperature_step self /\
  min_temp self' = min_temp self /\
  max_temp self' = max_temp self /\
  supported_features self' = supported_features self /\
  current_operation self' = current_operation self /\
  current_temperature self' = current_temperature self /\
  target_temperature self' = target_temperature self /\
  target_temperature_low self' = target_temperature_low self /\
  target_temperature_high self' = target_temperature_high self /\
  is_away_mode_on self' = is_away_mode_on self.

(** Every command the client was given is addressed to the entity's key. *)
Definition addressed_to_key (self : EsphomeClimateDevice) : Prop :=
  Forall (fun data : gmap string value =>
            data !! "key" = Some (VInt (ClimateInfo.key (_static_info self))))
         (APIClient.commands (_client self)).


(** ** Properties *)

(** *** Mode translation *)

(** The host's name of a device mode, read off the second table. *)
Lemma esphome_to_ha_total (m : ClimateMode) :
  _esphome_climate_mode_to_ha m =
  Ok match m with
     | OFF => STATE_OFF
     | AUTO => STATE_AUTO
     | COOL => STATE_COOL
     | HEAT => STATE_HEAT
     end.
Proof. destruct m; reflexivity. Qed.

Lemma esphome_to_ha_in_modes (m : ClimateMode) (s : string) :
  _esphome_climate_mode_to_ha m = Ok s -> s ∈ ha_modes.
Proof.
  rewrite esphome_to_ha_total. intros [= <-].
  unfold ha_modes. destruct m; set_solver.
Qed.

(** The first table has no key besides the four mode strings. *)
Lemma ha_to_esphome_table_lookup (s : string) (m : ClimateMode) :
  ha_to_esphome_table !! s = Some m ->
  s ∈ ha_modes /\ _esphome_climate_mode_to_ha m = Ok s.
Proof.
  unfold ha_to_esphome_table, ha_modes. intros H.
  repeat (apply lookup_insert_Some in H as [[<- <-] | [? H]];
          [ split; [set_solver | apply esphome_to_ha_total] | ]).
  rewrite lookup_empty in H. discriminate.
Qed.

(** *** Constant and static properties *)

(** C5: whatever the static info, the state and the client of the entity
    are, [temperature_unit] is the constant [TEMP_CELSIUS]; in particular any
    two entities report the same unit. *)
Theorem temperature_unit_constant :
  (forall self : EsphomeClimateDevice, temperature_unit self = TEMP_CELSIUS) /\
  (forall self self' : EsphomeClimateDevice,
     temperature_unit self = temperature_unit self').
Proof. split; reflexivity. Qed.

Lemma mapM_esphome_to_ha (modes : list ClimateMode) :
  exists l : list string,
    mapM _esphome_climate_mode_to_ha modes = Ok l /\
    Forall2 (fun m s => _esphome_climate_mode_to_ha m = Ok s) modes l.
Proof.
  induction modes as [|m modes (l & Hl & IH)].
  - exists []. split; [reflexivity | constructor].
  - destruct (_esphome_climate_mode_to_ha m) as [s|e] eqn:E.
    + exists (s :: l). split.
      * cbn [mapM]. rewrite E, Hl. reflexivity.
      * constructor; assumption.
    + rewrite esphome_to_ha_total in E. discriminate.
Qed.

(** C6: [operation_list] returns, without raising, the list of the host
    names of the supported modes of the static info: it has the length of
    [supported_modes] and its element at each index is the translation by
    [_esphome_climate_mode_to_ha] of the supported mode at that index. *)
Theorem operation_list_translates_supported_modes
    (self : EsphomeClimateDevice) :
  let modes := ClimateInfo.supported_modes (_static_info self) in
  exists l : list string,
    operation_list self = Ok l /\
    length l = length modes /\
    Forall2 (fun m s => _esphome_climate_mode_to_ha m = Ok s) modes l /\
    (forall (i : nat) (m : ClimateMode),
       modes !! i = Some m ->
       exists s : string,
         l !! i = Some s /\ _esphome_climate_mode_to_ha m = Ok s).
Proof.
  intros modes. destruct (mapM_esphome_to_ha modes) as (l & Hl & HF).
  exists l. split; [exact Hl |]. split; [| split; [exact HF |]].
  - symmetry. eapply Forall2_length; eassumption.
  - intros i m Hi.
    destruct (Forall2_lookup_l _ _ _ _ _ HF Hi) as (s & Hs & Hms).
    exists s. split; assumption.
Qed.

(** The integer chosen by the decimal rounding is a nearest one. *)
Lemma Zround_half_even_nearest (n d : Z) :
  0 < d -> 2 * Z.abs (n - d * PyFloat.Zround_half_even n d) <= d.
Proof.
  intros Hd. unfold PyFloat.Zround_half_even.
  pose proof (Z.div_mod n d ltac:(lia)) as Hdiv.
  pose proof (Z.mod_pos_bound n d Hd) as Hmod.
  destruct (Z.compare_spec (2 * (n mod d)) d) as [He|Hl|Hg];
    [destruct (Z.even (n / d)) | |]; lia.
Qed.

(** For a float [m * 2^e] with a fractional part, the integer that [round]
    keeps is within a half of the exact value scaled by [10^ndigits]. *)
Lemma scaled_digits_nearest (m : positive) (e : Z) (ndigits : N) :
  e < 0 ->
  2 * Z.abs (Z.pos m * 10 ^ Z.of_N ndigits
             - 2 ^ (- e) * PyFloat.scaled_digits m e ndigits) <= 2 ^ (- e).
Proof.
  intros He. unfold PyFloat.scaled_digits.
  destruct (Z.leb_spec 0 e) as [Hge|_]; [lia |].
  apply Zround_half_even_nearest. apply Z.pow_pos_nonneg; lia.
Qed.

(** C7: the bounds and the step shown to the host are read from the static
    info alone: [min_temp] and [max_temp] are its visual minimum and
    maximum, [target_temperature_step] is its visual step rounded to one
    decimal digit, and two entities with the same static info agree on all
    three whatever their states and clients are. *)
Theorem temperature_bounds_from_static_info
    (info : ClimateInfo.t) (st st' : option ClimateState.t)
    (c c' : APIClient.t) :
  let self := {| _static_info := info; _state := st; _client := c |} in
  let self' := {| _static_info := info; _state := st'; _client := c' |} in
  min_temp self = ClimateInfo.visual_min_temperature info /\
  max_temp self = ClimateInfo.visual_max_temperature info /\
  target_temperature_step self =
    PyFloat.round (ClimateInfo.visual_temperature_step info) 1 /\
  min_temp self = min_temp self' /\
  max_temp self = max_temp self' /\
  target_temperature_step self = target_temperature_step self'.
Proof. cbv zeta. repeat split. Qed.

(** *** Precision *)

Lemma SFcompare_swap (x y : float) :
  SFcompare y x = CompOpp <$> SFcompare x y.
Proof.
  destruct x as [sx|sx| |sx mx ex], y as [sy|sy| |sy my ey];
    try destruct sx; try destruct sy; try reflexivity; cbn.
  - rewrite (Z.compare_antisym ey ex).
    change (Pos.compare_cont Eq my mx) with (Pos.compare my mx).
    change (Pos.compare_cont Eq mx my) with (Pos.compare mx my).
    rewrite (Pos.compare_antisym my mx).
    destruct (ey ?= ex), (my ?= mx)%positive; reflexivity.
  - rewrite (Z.compare_antisym ey ex).
    change (Pos.compare_cont Eq my mx) with (Pos.compare my mx).
    change (Pos.compare_cont Eq mx my) with (Pos.compare mx my).
    rewrite (Pos.compare_antisym my mx).
    destruct (ey ?= ex), (my ?= mx)%positive; reflexivity.
Qed.

(** A step strictly below [p] does not reach [p]. *)
Lemma lt_not_ge (x p : float) :
  PyFloat.lt x p = true -> PyFloat.ge x p = false.
Proof.
  unfold PyFloat.lt, PyFloat.ge, SFltb, SFleb.
  rewrite (SFcompare_swap x p).
  destruct (SFcompare x p) as [[]|]; cbn; congruence.
Qed.

(** No comparison with a NaN holds. *)
Lemma nan_not_ge (x p : float) :
  PyFloat.isnan x = true -> PyFloat.ge x p = false.
Proof. destruct x; try discriminate. destruct p; reflexivity. Qed.

(** C9: [precision] returns one of 1.0, 0.5 and 0.1; when one of them is at
    most the visual step, it returns the largest such value (it is at most
    the step, and every entry that is at most the step is at most the
    result); when the step is smaller than all three it returns 0.1.  It
    is the first entry of 1.0, 0.5, 0.1 that the step reaches, and 0.1 when
    there is none. *)
Theorem precision_selects_coarsest (self : EsphomeClimateDevice) :
  let step := ClimateInfo.visual_temperature_step (_static_info self) in
  let precisions := [PRECISION_WHOLE; PRECISION_HALVES; PRECISION_TENTHS] in
  let p := precision self in
  p ∈ precisions /\
  (forall q : float,
     q ∈ precisions -> PyFloat.le q step = true ->
     PyFloat.le p step = true /\ PyFloat.le q p = true) /\
  ((forall q : float, q ∈ precisions -> PyFloat.lt step q = true) ->
   p = PRECISION_TENTHS) /\
  p = (if PyFloat.ge step PRECISION_WHOLE then PRECISION_WHOLE
       else if PyFloat.ge step PRECISION_HALVES then PRECISION_HALVES
       else PRECISION_TENTHS).
Proof.
  intros step precisions p. subst p precisions. unfold precision. fold step.
  cbn [precision_loop]. unfold PyFloat.le.
  destruct (PyFloat.ge step PRECISION_WHOLE) eqn:E1;
    [| destruct (PyFloat.ge step PRECISION_HALVES) eqn:E2;
       [| destruct (PyFloat.ge step PRECISION_TENTHS) eqn:E3 ] ].
  all: split; [set_solver |].
  all: split; [| split; [| reflexivity] ].
  all: try (intros q Hq Hle;
            repeat (apply elem_of_cons in Hq as [-> | Hq]);
            try (inversion Hq; fail);
            unfold PyFloat.ge in *;
            first [ congruence | split; [assumption | reflexivity] ]).
  all: intros Hall; try reflexivity.
  - pose proof (Hall PRECISION_WHOLE ltac:(set_solver)) as Hlt.
    apply lt_not_ge in Hlt. congruence.
  - pose proof (Hall PRECISION_HALVES ltac:(set_solver)) as Hlt.
    apply lt_not_ge in Hlt. congruence.
Qed.

(** A step that is not a number reaches no entry: the fallback applies. *)
Lemma precision_of_nan_step (self : EsphomeClimateDevice) :
  PyFloat.isnan (ClimateInfo.visual_temperature_step (_static_info self))
  = true ->
  precision self = PRECISION_TENTHS.
Proof.
  intros Hnan. unfold precision. cbn [precision_loop].
  rewrite !(nan_not_ge _ _ Hnan). reflexivity.
Qed.

(** *** State-derived getters *)


(** C3, as the code has it: without a state each of the six getters returns
    [None] and none raises; with a state, [current_operation] returns the
    translated mode, [is_away_mode_on] the away flag, and each temperature
    getter the corresponding state field unless that field is a NaN, in
    which case it returns [None]. *)
Theorem state_getters_guarded
    (info : ClimateInfo.t) (c : APIClient.t) :
  let absent := {| _static_info := info; _state := None; _client := c |} in
  (current_operation absent = Ok None /\
   current_temperature absent = None /\
   target_temperature absent = None /\
   target_temperature_low absent = None /\
   target_temperature_high absent = None /\
   is_away_mode_on absent = None) /\
  (forall st : ClimateState.t,
     let self := {| _static_info := info; _state := Some st; _client := c |} in
     (exists s : string,
        _esphome_climate_mode_to_ha (ClimateState.mode st) = Ok s /\
        current_operation self = Ok (Some s)) /\
     current_temperature self =
       (if PyFloat.isnan (ClimateState.current_temperature st) then None
        else Some (ClimateState.current_temperature st)) /\
     target_temperature self =
       (if PyFloat.isnan (ClimateState.target_temperature st) then None
        else Some (ClimateState.target_temperature st)) /\
     target_temperature_low self =
       (if PyFloat.isnan (ClimateState.target_temperature_low st) then None
        else Some (ClimateState.target_temperature_low st)) /\
     target_temperature_high self =
       (if PyFloat.isnan (ClimateState.target_temperature_high st) then None
        else Some (ClimateState.target_temperature_high st)) /\
     is_away_mode_on self = Some (ClimateState.away st)).
Proof.
  cbv zeta. split; [repeat split |].
  intros st. split; [| repeat split].
  unfold current_operation. cbn [_state].
  rewrite esphome_to_ha_total. eexists. split; reflexivity.
Qed.

(** *** Commands *)

Lemma supported_mode_translates (v : value) :
  supported_mode v <-> exists m : ClimateMode,
                         _ha_climate_mode_to_esphome v = Ok m.
Proof.
  split.
  - intros (s & -> & Hs). cbn.
    destruct (ha_to_esphome_table !! s) as [m|] eqn:E; [eauto |].
    exfalso. revert E. unfold ha_to_esphome_table, ha_modes in *.
    repeat (apply elem_of_cons in Hs as [-> | Hs]);
      [ | | | | inversion Hs ].
    all: intros E;
      repeat (apply lookup_insert_None in E as [E ?]); congruence.
  - intros [m Hm]. destruct v as [| | | |s|]; try discriminate.
    cbn in Hm. destruct (ha_to_esphome_table !! s) as [m'|] eqn:E;
      [| discriminate].
    apply ha_to_esphome_table_lookup in E as [Hs _].
    exists s. split; [reflexivity | exact Hs].
Qed.

Lemma unsupported_mode_raises (v : value) :
  ~ supported_mode v ->
  _ha_climate_mode_to_esphome v = Raise (KeyError v).
Proof.
  intros Hv. destruct (_ha_climate_mode_to_esphome v) as [m|e] eqn:E.
  - exfalso. apply Hv, supported_mode_translates. eauto.
  - destruct v as [| | | |s|]; cbn in E; try congruence.
    destruct (ha_to_esphome_table !! s); congruence.
Qed.

Lemma async_set_temperature_unfold
    (kwargs : gmap string value) (self : EsphomeClimateDevice) :
  async_set_temperature kwargs self =
  let base : gmap string value :=
    {[ "key" := VInt (ClimateInfo.key (_static_info self)) ]} in
  match kwargs !! ATTR_OPERATION_MODE with
  | None => client_climate_command (copy_temperatures kwargs base) self
  | Some v =>
      match _ha_climate_mode_to_esphome v with
      | Ok m =>
          client_climate_command
            (copy_temperatures kwargs (<["mode" := VMode m]> base)) self
      | Raise e => (Raise e, self)
      end
  end.
Proof.
  unfold async_set_temperature, copy_temperatures.
  unfold mbind, M_bind, get_self, lift, mret, M_ret.
  destruct (kwargs !! ATTR_OPERATION_MODE) as [v|]; [| reflexivity].
  destruct (_ha_climate_mode_to_esphome v); reflexivity.
Qed.

Lemma lookup_copy_kwarg (kwargs data : gmap string value)
    (name field k : string) :
  copy_kwarg kwargs name field data !! k =
  if decide (field = k)
  then match kwargs !! name with
       | Some v => Some v
       | None => data !! k
       end
  else data !! k.
Proof.
  unfold copy_kwarg. destruct (kwargs !! name) as [v|].
  - rewrite lookup_insert. reflexivity.
  - destruct (decide (field = k)); reflexivity.
Qed.

(** C10: [_ha_climate_mode_to_esphome] returns a mode exactly on the four
    mode strings and raises [KeyError] on every other argument; with such an
    argument, [async_set_operation_mode], and [async_set_temperature] given
    it as the operation-mode keyword, raise that [KeyError] and leave the
    entity as it was, no command having been sent to the client. *)
Theorem unsupported_mode_fails_before_command :
  (forall v : value,
     (exists m : ClimateMode, _ha_climate_mode_to_esphome v = Ok m) <->
     supported_mode v) /\
  (forall v : value,
     ~ supported_mode v ->
     _ha_climate_mode_to_esphome v = Raise (KeyError v) /\
     (forall self : EsphomeClimateDevice,
        async_set_operation_mode v self = (Raise (KeyError v), self) /\
        sent self (snd (async_set_operation_mode v self)) []) /\
     (forall (self : EsphomeClimateDevice) (kwargs : gmap string value),
        kwargs !! ATTR_OPERATION_MODE = Some v ->
        async_set_temperature kwargs self = (Raise (KeyError v), self) /\
        sent self (snd (async_set_temperature kwargs self)) [])).
Proof.
  split.
  - intros v. symmetry. apply supported_mode_translates.
  - intros v Hv. pose proof (unsupported_mode_raises v Hv) as Hraise.
    split; [exact Hraise |]. split.
    + intros self.
      assert (async_set_operation_mode v self = (Raise (KeyError v), self))
        as ->.
      { unfold async_set_operation_mode.
        unfold mbind, M_bind, get_self, lift. rewrite Hraise. reflexivity. }
      split; [reflexivity |]. unfold sent. cbn. symmetry. apply app_nil_r.
    + intros self kwargs Hk.
      rewrite async_set_temperature_unfold. cbv zeta. rewrite Hk, Hraise.
      split; [reflexivity |]. unfold sent. cbn. symmetry. apply app_nil_r.
Qed.

Lemma copy_temperatures_arguments
    (kwargs base : gmap string value) (fixed : list (string * option value)) :
  keyword_arguments base fixed ->
  Forall (fun k => k ∉ ["target_temperature"; "target_temperature_low";
                        "target_temperature_high"]) fixed.*1 ->
  keyword_arguments (copy_temperatures kwargs base)
    (fixed ++
     [("target_temperature", kwargs !! ATTR_TEMPERATURE);
      ("target_temperature_low", kwargs !! ATTR_TARGET_TEMP_LOW);
      ("target_temperature_high", kwargs !! ATTR_TARGET_TEMP_HIGH)]).
Proof.
  intros [Hin Hout] Hfixed. split.
  - intros k v Hk. apply elem_of_app in Hk as [Hk | Hk].
    + assert (k ∈ fixed.*1) as Hk1.
      { apply list_elem_of_fmap. exists (k, v). split; [reflexivity | exact Hk]. }
      rewrite Forall_forall in Hfixed. specialize (Hfixed k Hk1).
      unfold copy_temperatures. rewrite !lookup_copy_kwarg.
      repeat (case_decide; [subst k; exfalso; apply Hfixed; (apply list_elem_of_In; cbn; auto) |]).
      apply Hin. exact Hk.
    + assert (base !! "target_temperature" = None /\
              base !! "target_temperature_low" = None /\
              base !! "target_temperature_high" = None) as (H1 & H2 & H3).
      { repeat split; apply Hout; intros Hc;
          rewrite Forall_forall in Hfixed; apply (Hfixed _ Hc); (apply list_elem_of_In; cbn; auto). }
      repeat (apply elem_of_cons in Hk as [[= -> ->] | Hk]);
        [ | | | inversion Hk ].
      all: unfold copy_temperatures; rewrite !lookup_copy_kwarg.
      all: repeat (case_decide; simplify_eq).
      all: repeat case_match; simplify_eq; congruence.
  - intros k Hk. rewrite fmap_app in Hk. cbn in Hk.
    apply not_elem_of_app in Hk as [Hk1 Hk2].
    unfold copy_temperatures. rewrite !lookup_copy_kwarg.
    repeat (case_decide; [subst k; exfalso; apply Hk2; (apply list_elem_of_In; cbn; auto) |]).
    apply Hout. exact Hk1.
Qed.

Lemma key_arguments (key : value) :
  keyword_arguments {[ "key" := key ]} [("key", Some key)].
Proof.
  split.
  - intros k v Hk. apply list_elem_of_singleton in Hk as [= -> ->].
    apply lookup_singleton_eq.
  - intros k Hk. apply lookup_singleton_ne. intros <-. apply Hk.
    apply list_elem_of_In; cbn; auto.
Qed.

Lemma insert_arguments (base : gmap string value)
    (fixed : list (string * option value)) (name : string) (v : value) :
  keyword_arguments base fixed ->
  name ∉ fixed.*1 ->
  keyword_arguments (<[name := v]> base) (fixed ++ [(name, Some v)]).
Proof.
  intros [Hin Hout] Hname. split.
  - intros k w Hk. apply elem_of_app in Hk as [Hk | Hk].
    + rewrite lookup_insert_ne; [apply Hin; exact Hk |].
      intros <-. apply Hname. apply list_elem_of_fmap.
      exists (name, w). split; [reflexivity | exact Hk].
    + apply list_elem_of_singleton in Hk as [= -> ->].
      apply lookup_insert_eq.
  - intros k Hk. rewrite fmap_app in Hk.
    apply not_elem_of_app in Hk as [Hk1 Hk2].
    rewrite lookup_insert_ne; [apply Hout; exact Hk1 |].
    intros <-. apply Hk2. apply list_elem_of_In; cbn; auto.
Qed.

Lemma absent_argument (data : gmap string value)
    (before after : list (string * option value)) (name : string) :
  keyword_arguments data (before ++ after) ->
  name ∉ (before ++ after).*1 ->
  keyword_arguments data (before ++ (name, None) :: after).
Proof.
  intros [Hin Hout] Hname. split.
  - intros k v Hk. apply elem_of_app in Hk as [Hk | Hk].
    + apply Hin. apply elem_of_app. left. exact Hk.
    + apply elem_of_cons in Hk as [[= -> ->] | Hk].
      * apply Hout. exact Hname.
      * apply Hin. apply elem_of_app. right. exact Hk.
  - intros k Hk. apply Hout. intros Hc. apply Hk.
    rewrite fmap_app in *. cbn [fmap list_fmap] in *.
    apply elem_of_app in Hc as [Hc | Hc]; apply elem_of_app.
    + left. exact Hc.
    + right. apply elem_of_cons. right. exact Hc.
Qed.

Ltac not_among := cbn; intros ?H; apply list_elem_of_In in H; cbn in H;
                  intuition discriminate.

(** C4, as the code has it: the two away-mode methods always, and
    [async_set_operation_mode] and [async_set_temperature] whenever the
    operation mode they are given (if any) is one of the four mode strings,
    return normally after exactly one [climate_command] call, whose keyword
    arguments are the key of the static info and only the fields given by
    the method's own arguments, the mode translated by
    [_ha_climate_mode_to_esphome] and absent keywords left out; given any
    other operation mode, these two methods raise [KeyError] and perform no
    call; and every command method, whatever its arguments and outcome,
    leaves the stored static info and state as they were. *)
Theorem command_methods_pass_through (self : EsphomeClimateDevice) :
  let key := VInt (ClimateInfo.key (_static_info self)) in
  (forall kwargs : gmap string value,
     (forall v : value,
        kwargs !! ATTR_OPERATION_MODE = Some v -> supported_mode v) ->
     exists data : gmap string value,
       fst (async_set_temperature kwargs self) = Ok tt /\
       sent self (snd (async_set_temperature kwargs self)) [data] /\
       keyword_arguments data
         [("key", Some key);
          ("mode",
           v ← kwargs !! ATTR_OPERATION_MODE;
           VMode <$> result_to_option (_ha_climate_mode_to_esphome v));
          ("target_temperature", kwargs !! ATTR_TEMPERATURE);
          ("target_temperature_low", kwargs !! ATTR_TARGET_TEMP_LOW);
          ("target_temperature_high", kwargs !! ATTR_TARGET_TEMP_HIGH)]) /\
  (forall operation_mode : value,
     supported_mode operation_mode ->
     exists (m : ClimateMode) (data : gmap string value),
       _ha_climate_mode_to_esphome operation_mode = Ok m /\
       fst (async_set_operation_mode operation_mode self) = Ok tt /\
       sent self (snd (async_set_operation_mode operation_mode self)) [data] /\
       keyword_arguments data [("key", Some key); ("mode", Some (VMode m))]) /\
  (exists data : gmap string value,
     fst (async_turn_away_mode_on self) = Ok tt /\
     sent self (snd (async_turn_away_mode_on self)) [data] /\
     keyword_arguments data [("key", Some key); ("away", Some (VBool true))]) /\
  (exists data : gmap string value,
     fst (async_turn_away_mode_off self) = Ok tt /\
     sent self (snd (async_turn_away_mode_off self)) [data] /\
     keyword_arguments data [("key", Some key); ("away", Some (VBool false))]) /\
  (forall operation_mode : value,
     ~ supported_mode operation_mode ->
     fst (async_set_operation_mode operation_mode self)
     = Raise (KeyError operation_mode) /\
     sent self (snd (async_set_operation_mode operation_mode self)) []) /\
  (forall (kwargs : gmap string value) (v : value),
     kwargs !! ATTR_OPERATION_MODE = Some v ->
     ~ supported_mode v ->
     fst (async_set_temperature kwargs self) = Raise (KeyError v) /\
     sent self (snd (async_set_temperature kwargs self)) []) /\
  (forall (kwargs : gmap string value) (operation_mode : value),
     unchanged self (snd (async_set_temperature kwargs self)) /\
     unchanged self (snd (async_set_operation_mode operation_mode self)) /\
     unchanged self (snd (async_turn_away_mode_on self)) /\
     unchanged self (snd (async_turn_away_mode_off self))).
Proof.
  intros key.
  assert ("mode" ∉ [("key", Some key)].*1) as Hmode.
  { cbn. intros H. apply list_elem_of_singleton in H. discriminate. }
  assert ("away" ∉ [("key", Some key)].*1) as Haway.
  { cbn. intros H. apply list_elem_of_singleton in H. discriminate. }
  split; [| split; [| split; [| split; [| split; [| split]]]]].
  - intros kwargs Hsup. rewrite async_set_temperature_unfold. cbv zeta.
    fold key. destruct (kwargs !! ATTR_OPERATION_MODE) as [v|] eqn:Ek.
    + destruct (proj1 (supported_mode_translates v) (Hsup v eq_refl))
        as [m Hm].
      unfold mbind, option_bind. rewrite Hm.
      cbn [result_to_option fmap option_fmap option_map].
      eexists. split; [reflexivity |]. split; [reflexivity |].
      apply (copy_temperatures_arguments kwargs _
               [("key", Some key); ("mode", Some (VMode m))]).
      * apply (insert_arguments _ [("key", Some key)]);
          [apply key_arguments | exact Hmode].
      * repeat constructor; not_among.
    + unfold mbind, option_bind.
      eexists. split; [reflexivity |]. split; [reflexivity |].
      apply (absent_argument _ [("key", Some key)]).
      * apply (copy_temperatures_arguments kwargs _ [("key", Some key)]);
          [apply key_arguments | repeat constructor; not_among].
      * not_among.
  - intros operation_mode Hsup.
    destruct (proj1 (supported_mode_translates _) Hsup) as [m Hm].
    exists m. unfold async_set_operation_mode.
    unfold mbind, M_bind, get_self, lift. rewrite Hm. fold key.
    eexists. split; [reflexivity |]. split; [reflexivity |].
    split; [reflexivity |].
    apply (insert_arguments _ [("key", Some key)]);
      [apply key_arguments | exact Hmode].
  - eexists. split; [reflexivity |]. split; [reflexivity |].
    apply (insert_arguments _ [("key", Some key)]);
      [apply key_arguments | exact Haway].
  - eexists. split; [reflexivity |]. split; [reflexivity |].
    apply (insert_arguments _ [("key", Some key)]);
      [apply key_arguments | exact Haway].
  - intros operation_mode Hno.
    unfold async_set_operation_mode, mbind, M_bind, get_self, lift.
    rewrite (unsupported_mode_raises operation_mode Hno).
    split; [reflexivity |]. unfold sent. cbn [snd]. symmetry. apply app_nil_r.
  - intros kwargs v Hk Hno.
    rewrite async_set_temperature_unfold. cbv zeta.
    rewrite Hk, (unsupported_mode_raises v Hno).
    split; [reflexivity |]. unfold sent. cbn [snd]. symmetry. apply app_nil_r.
  - intros kwargs operation_mode. repeat split.
    all: try (rewrite async_set_temperature_unfold; cbv zeta;
              destruct (kwargs !! ATTR_OPERATION_MODE) as [v|];
              [destruct (_ha_climate_mode_to_esphome v) |]; reflexivity).
    all: unfold async_set_operation_mode, mbind, M_bind, get_self, lift;
      destruct (_ha_climate_mode_to_esphome operation_mode); reflexivity.
Qed.

(** *** Further properties of the precision *)

Lemma SFcompare_finite_same_sign (m1 m2 : positive) (e1 e2 : Z) :
  (match Z.compare e1 e2 with
   | Lt => Lt
   | Gt => Gt
   | Eq => Pos.compare_cont Eq m1 m2
   end = Lt <-> e1 < e2 \/ e1 = e2 /\ (m1 < m2)%positive) /\
  (match Z.compare e1 e2 with
   | Lt => Lt
   | Gt => Gt
   | Eq => Pos.compare_cont Eq m1 m2
   end = Eq <-> e1 = e2 /\ m1 = m2) /\
  (match Z.compare e1 e2 with
   | Lt => Lt
   | Gt => Gt
   | Eq => Pos.compare_cont Eq m1 m2
   end = Gt <-> e2 < e1 \/ e1 = e2 /\ (m2 < m1)%positive).
Proof.
  change (Pos.compare_cont Eq m1 m2) with (Pos.compare m1 m2).
  destruct (Z.compare_spec e1 e2), (Pos.compare_spec m1 m2);
    repeat split; intros; try discriminate; try lia; auto.
Qed.

(** The comparison of floats is transitive. *)
Lemma le_trans (x y z : float) :
  PyFloat.le x y = true -> PyFloat.le y z = true -> PyFloat.le x z = true.
Proof.
  unfold PyFloat.le, SFleb.
  destruct x as [sx|sx| |sx mx ex], y as [sy|sy| |sy my ey],
           z as [sz|sz| |sz mz ez];
    try destruct sx; try destruct sy; try destruct sz;
    cbn; try congruence.
  all: repeat match goal with
         | |- context [match ?c with
                       | Lt => Gt
                       | Gt => Lt
                       | Eq => CompOpp ?d
                       end] =>
             replace (match c with Lt => Gt | Gt => Lt | Eq => CompOpp d end)
               with (CompOpp (match c with Lt => Lt | Gt => Gt | Eq => d end))
               by (destruct c; reflexivity)
         end.
  all: destruct (SFcompare_finite_same_sign mx my ex ey) as (L1 & E1 & G1).
  all: destruct (SFcompare_finite_same_sign my mz ey ez) as (L2 & E2 & G2).
  all: destruct (SFcompare_finite_same_sign mx mz ex ez) as (L3 & E3 & G3).
  all: repeat match goal with
         | |- context [match ?c with Lt => Lt | Gt => Gt | Eq => ?d end] =>
             let r := fresh "r" in
             set (r := match c with Lt => Lt | Gt => Gt | Eq => d end) in *;
             clearbody r
         end.
  all: repeat match goal with
         | r : comparison |- _ => destruct r
         end; cbn; intros; try reflexivity; try discriminate; exfalso.
  all: repeat match goal with
         | H : ?c = ?c <-> _ |- _ => apply proj1 in H; specialize (H eq_refl)
         | H : ?c = ?d <-> _ |- _ => clear H
         end; lia.
Qed.

(** X1: the precision is monotone in the step: of two devices, the one whose
    visual step is the larger (as floats) never gets the finer precision. *)
Theorem precision_monotone (self self' : EsphomeClimateDevice) :
  PyFloat.le (ClimateInfo.visual_temperature_step (_static_info self))
             (ClimateInfo.visual_temperature_step (_static_info self'))
  = true ->
  PyFloat.le (precision self) (precision self') = true.
Proof.
  intros Hle. unfold precision. cbn [precision_loop].
  set (s := ClimateInfo.visual_temperature_step (_static_info self)) in *.
  set (s' := ClimateInfo.visual_temperature_step (_static_info self')) in *.
  assert (forall p, PyFloat.ge s p = true -> PyFloat.ge s' p = true) as Hup.
  { intros p Hp. unfold PyFloat.ge in *. exact (le_trans p s s' Hp Hle). }
  destruct (PyFloat.ge s PRECISION_WHOLE) eqn:E1.
  { rewrite (Hup _ E1). reflexivity. }
  destruct (PyFloat.ge s PRECISION_HALVES) eqn:E2.
  { rewrite (Hup _ E2). destruct (PyFloat.ge s' PRECISION_WHOLE); reflexivity. }
  destruct (PyFloat.ge s PRECISION_TENTHS), (PyFloat.ge s' PRECISION_WHOLE),
           (PyFloat.ge s' PRECISION_HALVES), (PyFloat.ge s' PRECISION_TENTHS);
    reflexivity.
Qed.


(** X3: the precision is a fixed point of the rule: a device whose visual
    step is the precision reported for another device reports that same
    precision. *)
Theorem precision_idempotent (self self' : EsphomeClimateDevice) :
  ClimateInfo.visual_temperature_step (_static_info self') = precision self ->
  precision self' = precision self.
Proof.
  intros Hstep.
  assert (precision self = PRECISION_WHOLE \/
          precision self = PRECISION_HALVES \/
          precision self = PRECISION_TENTHS) as Hcases.
  { unfold precision. cbn [precision_loop].
    repeat match goal with
           | |- context [PyFloat.ge ?x ?p] => destruct (PyFloat.ge x p)
           end; auto. }
  unfold precision at 1. rewrite Hstep.
  destruct Hcases as [-> | [-> | ->]]; reflexivity.
Qed.

(** *** Further properties of the rounding *)

Lemma shr_1_nonneg (mrs : shr_record) :
  0 <= shr_m mrs -> 0 <= shr_m (shr_1 mrs).
Proof.
  destruct mrs as [m r s]. cbn [shr_m]. intros Hm.
  destruct m as [|p|p]; [cbn; lia | | lia].
  destruct p; cbn; lia.
Qed.

Lemma iter_shr_1_nonneg (p : positive) (mrs : shr_record) :
  0 <= shr_m mrs -> 0 <= shr_m (SpecFloat.iter_pos shr_1 p mrs).
Proof.
  revert mrs. induction p as [p IH|p IH|]; intros mrs Hm; cbn [SpecFloat.iter_pos].
  - apply IH, IH, shr_1_nonneg, Hm.
  - apply IH, IH, Hm.
  - apply shr_1_nonneg, Hm.
Qed.

Lemma shr_fexp_nonneg (m e : Z) (l : location) :
  0 <= m -> 0 <= shr_m (fst (shr_fexp PyFloat.prec PyFloat.emax m e l)).
Proof.
  intros Hm. unfold shr_fexp, shr.
  assert (0 <= shr_m (shr_record_of_loc m l)) as Hrec.
  { destruct l as [|[]]; exact Hm. }
  destruct (fexp _ _ _ - e) as [|p|p]; cbn [fst]; try exact Hrec.
  apply iter_shr_1_nonneg, Hrec.
Qed.

(** Rounding a non-negative mantissa to the format gives a number. *)
Lemma binary_round_aux_number (s : bool) (m e : Z) (l : location) :
  0 <= m ->
  PyFloat.isnan (binary_round_aux PyFloat.prec PyFloat.emax s m e l) = false.
Proof.
  intros Hm. unfold binary_round_aux.
  pose proof (shr_fexp_nonneg m e l Hm) as H1.
  destruct (shr_fexp PyFloat.prec PyFloat.emax m e l) as [mrs' e'].
  cbn [fst] in H1.
  assert (0 <= round_nearest_even (shr_m mrs') (loc_of_shr_record mrs'))
    as H2.
  { unfold round_nearest_even.
    destruct (loc_of_shr_record mrs') as [|[]];
      try destruct (Z.even (shr_m mrs')); lia. }
  pose proof (shr_fexp_nonneg _ e' loc_Exact H2) as H3.
  destruct (shr_fexp PyFloat.prec PyFloat.emax
              (round_nearest_even (shr_m mrs') (loc_of_shr_record mrs'))
              e' loc_Exact) as [mrs'' e''].
  cbn [fst] in H3.
  destruct (shr_m mrs'') as [|p|p]; [reflexivity | | lia].
  destruct (e'' <=? PyFloat.emax - PyFloat.prec); reflexivity.
Qed.

Lemma SFdiv_finite_number (s s' : bool) (m m' : positive) (e e' : Z) :
  PyFloat.isnan (SFdiv PyFloat.prec PyFloat.emax
                       (S754_finite s m e) (S754_finite s' m' e')) = false.
Proof.
  cbn [SFdiv]. unfold SFdiv_core_binary.
  set (shift := e - e' - _).
  set (dividend := match shift with
                   | Z.pos _ => Z.shiftl (Z.pos m) shift
                   | Z0 => Z.pos m
                   | Z.neg _ => 0
                   end).
  assert (0 <= dividend) as Hd.
  { subst dividend. destruct shift; try lia. apply Z.shiftl_nonneg. lia. }
  pose proof (Z.div_pos dividend (Z.pos m') Hd ltac:(lia)) as Hq.
  unfold Z.div in Hq.
  destruct (Z.div_eucl dividend (Z.pos m')) as [q r]. cbn [fst] in Hq.
  apply binary_round_aux_number, Hq.
Qed.

Lemma round_isnan (x : float) (ndigits : N) :
  PyFloat.isnan (PyFloat.round x ndigits) = PyFloat.isnan x.
Proof.
  destruct x as [s|s| |s m e]; try reflexivity.
  unfold PyFloat.round.
  destruct (PyFloat.scaled_digits m e ndigits); try reflexivity.
  apply SFdiv_finite_number.
Qed.

(** X14: rounding never turns a number into a NaN, nor a NaN into a number:
    [target_temperature_step] is a NaN exactly when the visual step of the
    static info is one. *)
Theorem target_temperature_step_isnan (self : EsphomeClimateDevice) :
  PyFloat.isnan (target_temperature_step self) =
  PyFloat.isnan (ClimateInfo.visual_temperature_step (_static_info self)).
Proof. unfold target_temperature_step. apply round_isnan. Qed.

(** *** Further properties of the commands *)

(** Where a command method leaves the entity: as it was, or with one more
    command in the client's log. *)
Lemma command_outcome (kwargs : gmap string value) (operation_mode : value)
    (self self' : EsphomeClimateDevice) :
  self' = snd (async_set_temperature kwargs self) \/
  self' = snd (async_set_operation_mode operation_mode self) \/
  self' = snd (async_turn_away_mode_on self) \/
  self' = snd (async_turn_away_mode_off self) ->
  self' = self \/
  exists data : gmap string value,
    self' = snd (client_climate_command data self) /\
    data !! "key" = Some (VInt (ClimateInfo.key (_static_info self))).
Proof.
  set (key := VInt (ClimateInfo.key (_static_info self))).
  intros [-> | [-> | [-> | ->]]].
  - rewrite async_set_temperature_unfold. cbv zeta. fold key.
    destruct (kwargs !! ATTR_OPERATION_MODE) as [v|].
    + destruct (_ha_climate_mode_to_esphome v) as [m|e]; [| left; reflexivity].
      right. eexists. split; [reflexivity |].
      assert (keyword_arguments (<["mode" := VMode m]> {[ "key" := key ]})
                ([("key", Some key)] ++ [("mode", Some (VMode m))])) as Hbase.
      { apply insert_arguments; [apply key_arguments | not_among]. }
      apply (copy_temperatures_arguments kwargs) in Hbase as [Hin _];
        [| repeat constructor; not_among].
      apply Hin. apply list_elem_of_In; cbn; auto.
    + right. eexists. split; [reflexivity |].
      pose proof (key_arguments key) as Hbase.
      apply (copy_temperatures_arguments kwargs) in Hbase as [Hin _];
        [| repeat constructor; not_among].
      apply Hin. apply list_elem_of_In; cbn; auto.
  - unfold async_set_operation_mode, mbind, M_bind, get_self, lift.
    destruct (_ha_climate_mode_to_esphome operation_mode) as [m|e];
      [| left; reflexivity].
    right. eexists. split; [reflexivity |].
    rewrite lookup_insert_ne by discriminate. apply lookup_singleton_eq.
  - right. eexists. split; [reflexivity |].
    rewrite lookup_insert_ne by discriminate. apply lookup_singleton_eq.
  - right. eexists. split; [reflexivity |].
    rewrite lookup_insert_ne by discriminate. apply lookup_singleton_eq.
Qed.

(** X4: no command method updates what the entity shows: after any of the
    four, with any arguments and whether it raised or not, every property
    getter returns what it returned before; the host sees a change only
    when the device delivers a new state. *)
Theorem commands_keep_properties
    (kwargs : gmap string value) (operation_mode : value)
    (self : EsphomeClimateDevice) :
  same_properties self (snd (async_set_temperature kwargs self)) /\
  same_properties self (snd (async_set_operation_mode operation_mode self)) /\
  same_properties self (snd (async_turn_away_mode_on self)) /\
  same_properties self (snd (async_turn_away_mode_off self)).
Proof.
  assert (forall self', unchanged self self' -> same_properties self self')
    as Hsame.
  { intros self' [Hinfo Hstate]. unfold same_properties.
    unfold precision, temperature_unit, operation_list,
      target_temperature_step, min_temp, max_temp, supported_features,
      current_operation, current_temperature, target_temperature,
      target_temperature_low, target_temperature_high, is_away_mode_on.
    rewrite Hinfo, Hstate. repeat split. }
  assert (forall self',
            self' = snd (async_set_temperature kwargs self) \/
            self' = snd (async_set_operation_mode operation_mode self) \/
            self' = snd (async_turn_away_mode_on self) \/
            self' = snd (async_turn_away_mode_off self) ->
            same_properties self self') as Hall.
  { intros self' Hself'. apply Hsame.
    destruct (command_outcome kwargs operation_mode self self' Hself')
      as [-> | (data & -> & _)]; split; reflexivity. }
  repeat split; apply Hall; auto.
Qed.

(** X5: the commands keep the client's log addressed to the entity: if every
    command sent so far carries the entity's key, so does every command in
    the log after any of the four command methods, and the key itself is
    unchanged. *)
Theorem commands_keep_log_addressed
    (kwargs : gmap string value) (operation_mode : value)
    (self self' : EsphomeClimateDevice) :
  addressed_to_key self ->
  self' = snd (async_set_temperature kwargs self) \/
  self' = snd (async_set_operation_mode operation_mode self) \/
  self' = snd (async_turn_away_mode_on self) \/
  self' = snd (async_turn_away_mode_off self) ->
  addressed_to_key self' /\
  ClimateInfo.key (_static_info self') = ClimateInfo.key (_static_info self).
Proof.
  intros Hlog Hself'.
  destruct (command_outcome kwargs operation_mode self self' Hself')
    as [-> | (data & -> & Hdata)]; [split; [exact Hlog | reflexivity] |].
  split; [| reflexivity].
  unfold addressed_to_key in *. cbn.
  apply Forall_app. split; [exact Hlog |].
  constructor; [exact Hdata | constructor].
Qed.

(** X6: [async_set_temperature] reads four keywords and nothing else: two
    calls whose keyword arguments agree on the operation mode and the three
    temperatures behave alike, whatever else they were given. *)
Theorem set_temperature_ignores_other_keywords
    (kwargs kwargs' : gmap string value) (self : EsphomeClimateDevice) :
  kwargs !! ATTR_OPERATION_MODE = kwargs' !! ATTR_OPERATION_MODE ->
  kwargs !! ATTR_TEMPERATURE = kwargs' !! ATTR_TEMPERATURE ->
  kwargs !! ATTR_TARGET_TEMP_LOW = kwargs' !! ATTR_TARGET_TEMP_LOW ->
  kwargs !! ATTR_TARGET_TEMP_HIGH = kwargs' !! ATTR_TARGET_TEMP_HIGH ->
  async_set_temperature kwargs self = async_set_temperature kwargs' self.
Proof.
  intros Hmode Htemp Hlow Hhigh.
  rewrite !async_set_temperature_unfold. cbv zeta.
  unfold copy_temperatures, copy_kwarg.
  rewrite Hmode, Htemp, Hlow, Hhigh. reflexivity.
Qed.

(** X7: given none of the four keywords, [async_set_temperature] still
    sends a command: exactly one, carrying the key and nothing else. *)
Theorem set_temperature_without_keywords
    (kwargs : gmap string value) (self : EsphomeClimateDevice) :
  kwargs !! ATTR_OPERATION_MODE = None ->
  kwargs !! ATTR_TEMPERATURE = None ->
  kwargs !! ATTR_TARGET_TEMP_LOW = None ->
  kwargs !! ATTR_TARGET_TEMP_HIGH = None ->
  fst (async_set_temperature kwargs self) = Ok tt /\
  sent self (snd (async_set_temperature kwargs self))
       [ {[ "key" := VInt (ClimateInfo.key (_static_info self)) ]} ].
Proof.
  intros Hmode Htemp Hlow Hhigh.
  rewrite async_set_temperature_unfold. cbv zeta.
  unfold copy_temperatures, copy_kwarg.
  rewrite Hmode, Htemp, Hlow, Hhigh. split; reflexivity.
Qed.

(** X8: a call of [async_set_temperature] that carries an operation mode
    and none of the three temperatures is a call of
    [async_set_operation_mode]: same outcome, same command. *)
Theorem set_temperature_with_mode_only
    (kwargs : gmap string value) (v : value) (self : EsphomeClimateDevice) :
  kwargs !! ATTR_OPERATION_MODE = Some v ->
  kwargs !! ATTR_TEMPERATURE = None ->
  kwargs !! ATTR_TARGET_TEMP_LOW = None ->
  kwargs !! ATTR_TARGET_TEMP_HIGH = None ->
  async_set_temperature kwargs self = async_set_operation_mode v self.
Proof.
  intros Hmode Htemp Hlow Hhigh.
  rewrite async_set_temperature_unfold. cbv zeta.
  unfold copy_temperatures, copy_kwarg.
  rewrite Hmode, Htemp, Hlow, Hhigh.
  unfold async_set_operation_mode, mbind, M_bind, get_self, lift.
  destruct (_ha_climate_mode_to_esphome v); reflexivity.
Qed.

(** X9: no two arguments are translated to the same device mode. *)
Theorem ha_to_esphome_injective (v v' : value) (m : ClimateMode) :
  _ha_climate_mode_to_esphome v = Ok m ->
  _ha_climate_mode_to_esphome v' = Ok m ->
  v = v'.
Proof.
  assert (forall u, _ha_climate_mode_to_esphome u = Ok m ->
                    exists s, u = VStr s /\
                              _esphome_climate_mode_to_ha m = Ok s) as Hname.
  { intros u Hu. destruct u as [| | | |s|]; try discriminate.
    cbn in Hu. destruct (ha_to_esphome_table !! s) as [m'|] eqn:E;
      [| discriminate].
    injection Hu as ->. exists s. split; [reflexivity |].
    apply (ha_to_esphome_table_lookup s m E). }
  intros Hv Hv'.
  destruct (Hname v Hv) as (s & -> & Hs).
  destruct (Hname v' Hv') as (s' & -> & Hs').
  congruence.
Qed.

(** X10: the mode an entity reports is one it offers: when the device's
    current mode is among its supported modes, [current_operation] returns
    an element of [operation_list]. *)
Theorem current_operation_in_operation_list
    (self : EsphomeClimateDevice) (st : ClimateState.t) :
  _state self = Some st ->
  ClimateState.mode st ∈ ClimateInfo.supported_modes (_static_info self) ->
  exists (s : string) (l : list string),
    current_operation self = Ok (Some s) /\
    operation_list self = Ok l /\
    s ∈ l.
Proof.
  intros Hst Hmode.
  destruct (mapM_esphome_to_ha
              (ClimateInfo.supported_modes (_static_info self)))
    as (l & Hl & HF).
  apply list_elem_of_lookup in Hmode as [i Hi].
  destruct (Forall2_lookup_l _ _ _ _ _ HF Hi) as (s & Hs & Hms).
  exists s, l. split; [| split; [exact Hl |]].
  - unfold current_operation. rewrite Hst, Hms. reflexivity.
  - apply list_elem_of_lookup. exists i. exact Hs.
Qed.

(** *** Properties that depend on the imported constants

    The mode strings of the host are pairwise distinct. *)
Hypothesis ha_modes_distinct : NoDup ha_modes.

Lemma ha_modes_pairwise :
  STATE_OFF <> STATE_AUTO /\ STATE_OFF <> STATE_COOL /\
  STATE_OFF <> STATE_HEAT /\ STATE_AUTO <> STATE_COOL /\
  STATE_AUTO <> STATE_HEAT /\ STATE_COOL <> STATE_HEAT.
Proof.
  pose proof ha_modes_distinct as H. unfold ha_modes in H.
  repeat match goal with
         | H : NoDup (_ :: _) |- _ => apply NoDup_cons in H as [? ?]
         end.
  set_solver.
Qed.

Lemma ha_to_esphome_of_name (m : ClimateMode) (s : string) :
  _esphome_climate_mode_to_ha m = Ok s ->
  _ha_climate_mode_to_esphome (VStr s) = Ok m.
Proof.
  destruct ha_modes_pairwise as (? & ? & ? & ? & ? & ?).
  rewrite esphome_to_ha_total. intros [= <-].
  unfold _ha_climate_mode_to_esphome, ha_to_esphome_table.
  destruct m; simplify_map_eq; reflexivity.
Qed.

(** C1: the two translation functions are mutually inverse bijections
    between the four mode strings of the host and the four modes of the
    device: translating a mode string to the device and back gives the
    string, and translating a device mode to the host and back gives the
    mode. *)
Theorem climate_mode_translation_inverse :
  (forall s : string, s ∈ ha_modes ->
     exists m : ClimateMode,
       _ha_climate_mode_to_esphome (VStr s) = Ok m /\
       _esphome_climate_mode_to_ha m = Ok s) /\
  (forall m : ClimateMode,
     exists s : string,
       s ∈ ha_modes /\
       _esphome_climate_mode_to_ha m = Ok s /\
       _ha_climate_mode_to_esphome (VStr s) = Ok m).
Proof.
  split.
  - intros s Hs.
    assert (exists m, _esphome_climate_mode_to_ha m = Ok s) as [m Hm].
    { unfold ha_modes in Hs.
      repeat (apply elem_of_cons in Hs as [-> | Hs]);
        [ exists OFF | exists AUTO | exists COOL | exists HEAT | ];
        try apply esphome_to_ha_total.
      inversion Hs. }
    exists m. split; [ apply ha_to_esphome_of_name |]; exact Hm.
  - intros m. destruct (_esphome_climate_mode_to_ha m) as [s|e] eqn:E.
    + exists s. split; [ eapply esphome_to_ha_in_modes; eauto |].
      split; [ reflexivity | apply ha_to_esphome_of_name; exact E ].
    + rewrite esphome_to_ha_total in E. discriminate.
Qed.

(** X11: every operation the entity offers can be set: for each element of
    [operation_list], [async_set_operation_mode] returns normally and sends
    one command, whose mode is a supported mode of the device, the one that
    [operation_list] showed under that name. *)
Theorem offered_operation_can_be_set
    (self : EsphomeClimateDevice) (l : list string) (s : string) :
  operation_list self = Ok l ->
  s ∈ l ->
  exists m : ClimateMode,
    m ∈ ClimateInfo.supported_modes (_static_info self) /\
    _esphome_climate_mode_to_ha m = Ok s /\
    fst (async_set_operation_mode (VStr s) self) = Ok tt /\
    sent self (snd (async_set_operation_mode (VStr s) self))
         [ <["mode" := VMode m]>
             {[ "key" := VInt (ClimateInfo.key (_static_info self)) ]} ].
Proof using ha_modes_distinct.
  intros Hl Hs. unfold operation_list in Hl.
  destruct (mapM_esphome_to_ha
              (ClimateInfo.supported_modes (_static_info self)))
    as (l' & Hl' & HF).
  rewrite Hl' in Hl. injection Hl as ->.
  apply list_elem_of_lookup in Hs as [i Hi].
  destruct (Forall2_lookup_r _ _ _ _ _ HF Hi) as (m & Hm & Hms).
  exists m. split; [apply list_elem_of_lookup; exists i; exact Hm |].
  split; [exact Hms |].
  unfold async_set_operation_mode, mbind, M_bind, get_self, lift.
  rewrite (ha_to_esphome_of_name m s Hms). split; reflexivity.
Qed.

(** X12: the translation keeps supported modes apart: [operation_list] has
    a repeated name exactly when [supported_modes] has a repeated mode. *)
Theorem operation_list_NoDup (self : EsphomeClimateDevice) (l : list string) :
  operation_list self = Ok l ->
  (NoDup l <-> NoDup (ClimateInfo.supported_modes (_static_info self))).
Proof using ha_modes_distinct.
  intros Hl. unfold operation_list in Hl.
  set (name := fun m : ClimateMode =>
                 match m with
                 | OFF => STATE_OFF
                 | AUTO => STATE_AUTO
                 | COOL => STATE_COOL
                 | HEAT => STATE_HEAT
                 end).
  assert (forall modes, mapM _esphome_climate_mode_to_ha modes
                        = Ok (name <$> modes)) as Hmap.
  { induction modes as [|m modes IH]; [reflexivity |].
    cbn [mapM]. rewrite esphome_to_ha_total, IH. reflexivity. }
  rewrite Hmap in Hl. injection Hl as <-.
  assert (Inj (=) (=) name) as Hinj.
  { destruct ha_modes_pairwise as (? & ? & ? & ? & ? & ?).
    intros [] []; cbn; congruence. }
  apply (NoDup_fmap name).
Qed.

(** X15: reading the operation and setting it again is a round trip:
    given the name [current_operation] returns, [async_set_operation_mode]
    returns normally and sends one command, whose mode is the mode of the
    entity's state. *)
Theorem current_operation_round_trip
    (self : EsphomeClimateDevice) (st : ClimateState.t) (s : string) :
  _state self = Some st ->
  current_operation self = Ok (Some s) ->
  fst (async_set_operation_mode (VStr s) self) = Ok tt /\
  sent self (snd (async_set_operation_mode (VStr s) self))
       [ <["mode" := VMode (ClimateState.mode st)]>
           {[ "key" := VInt (ClimateInfo.key (_static_info self)) ]} ].
Proof using ha_modes_distinct.
  intros Hst Hcur. unfold current_operation in Hcur. rewrite Hst in Hcur.
  destruct (_esphome_climate_mode_to_ha (ClimateState.mode st)) as [s'|e]
    eqn:Hname; [| discriminate].
  cbn in Hcur. injection Hcur as ->.
  unfold async_set_operation_mode, mbind, M_bind, get_self, lift.
  rewrite (ha_to_esphome_of_name _ _ Hname). split; reflexivity.
Qed.

(** The five feature flags used are non-zero and share no bit. *)
Hypothesis flags_disjoint :
  disjoint_flags
    [SUPPORT_OPERATION_MODE; SUPPORT_TARGET_TEMPERATURE;
     SUPPORT_TARGET_TEMPERATURE_LOW; SUPPORT_TARGET_TEMPERATURE_HIGH;
     SUPPORT_AWAY_MODE] = true.

Lemma disjoint_flags_cons (f : Z) (rest : list Z) :
  disjoint_flags (f :: rest) = true ->
  f <> 0 /\ Forall (fun g => Z.land f g = 0) rest /\
  disjoint_flags rest = true.
Proof.
  cbn [disjoint_flags]. rewrite !andb_true_iff, negb_true_iff, Z.eqb_neq.
  intros [[Hf Hall] Hrest]. repeat split; try assumption.
  apply Forall_forall. intros g Hg. apply Z.eqb_eq.
  rewrite forallb_forall in Hall. apply Hall.
  apply list_elem_of_In. exact Hg.
Qed.

Lemma land_0_bits (a b : Z) (i : Z) :
  Z.land a b = 0 -> Z.testbit a i && Z.testbit b i = false.
Proof. intros H. rewrite <- Z.land_spec, H. apply Z.bits_0. Qed.

(** Bitwise reasoning on masks built from the five flags: compare two masks
    bit by bit, knowing that no two flags share a bit. *)
Ltac flag_bits :=
  let i := fresh "i" in
  let Hi := fresh "Hi" in
  apply Z.bits_inj'; intros i Hi;
  repeat first [ rewrite Z.land_spec | rewrite Z.lor_spec
               | rewrite Z.lnot_spec by assumption | rewrite Z.bits_0 ];
  repeat match goal with
         | H : Z.land ?a ?b = 0 |- _ => apply (land_0_bits a b i) in H
         end;
  repeat match goal with
         | |- context [Z.testbit ?a i] =>
             let b := fresh "b" in
             set (b := Z.testbit a i) in *; clearbody b; destruct b
         end;
  cbn in *; congruence.

(** C2: the feature mask always contains the operation-mode flag; it
    contains the low and high target flags and not the single target flag
    when the device has a two-point target, and the single target flag and
    neither the low nor the high one otherwise; it contains the away flag
    exactly when the device supports away mode; and it has no bit outside
    these five flags. *)
Theorem supported_features_flags (self : EsphomeClimateDevice) :
  let info := _static_info self in
  let r := supported_features self in
  has_flag r SUPPORT_OPERATION_MODE /\
  (if ClimateInfo.supports_two_point_target_temperature info
   then has_flag r SUPPORT_TARGET_TEMPERATURE_LOW /\
        has_flag r SUPPORT_TARGET_TEMPERATURE_HIGH /\
        ~ has_flag r SUPPORT_TARGET_TEMPERATURE /\
        lacks_flag r SUPPORT_TARGET_TEMPERATURE
   else has_flag r SUPPORT_TARGET_TEMPERATURE /\
        ~ has_flag r SUPPORT_TARGET_TEMPERATURE_LOW /\
        lacks_flag r SUPPORT_TARGET_TEMPERATURE_LOW /\
        ~ has_flag r SUPPORT_TARGET_TEMPERATURE_HIGH /\
        lacks_flag r SUPPORT_TARGET_TEMPERATURE_HIGH) /\
  (has_flag r SUPPORT_AWAY_MODE <-> ClimateInfo.supports_away info = true) /\
  Z.land r
    (Z.lnot
       (Z.lor SUPPORT_OPERATION_MODE
          (Z.lor SUPPORT_TARGET_TEMPERATURE
             (Z.lor SUPPORT_TARGET_TEMPERATURE_LOW
                (Z.lor SUPPORT_TARGET_TEMPERATURE_HIGH
                   SUPPORT_AWAY_MODE))))) = 0.
Proof.
  pose proof flags_disjoint as H. clear flags_disjoint.
  repeat match goal with
         | H : disjoint_flags (_ :: _) = true |- _ =>
             apply disjoint_flags_cons in H as (? & ? & H)
         end.
  repeat match goal with
         | H : Forall _ (_ :: _) |- _ =>
             apply Forall_cons in H as [? H]
         end.
  cbn beta in *.
  assert (forall r f, f <> 0 -> lacks_flag r f -> ~ has_flag r f) as Hlack.
  { unfold has_flag, lacks_flag. congruence. }
  intros info r. subst r. unfold supported_features. fold info.
  destruct (ClimateInfo.supports_two_point_target_temperature info),
           (ClimateInfo.supports_away info);
    unfold has_flag, lacks_flag in *;
    repeat match goal with
           | |- _ /\ _ => split
           | |- _ <-> _ => split; intros ?
           | |- ~ _ => apply Hlack; [assumption |]
           | |- true = true => reflexivity
           | H : false = true |- _ => discriminate H
           end;
    try (exfalso;
         match goal with
         | Hh : Z.land _ ?f = ?f, Hn : ?f <> 0 |- False =>
             apply Hn; rewrite <- Hh; clear Hh
         end);
    flag_bits.
Qed.

(** What the mask shows of each capability. *)
Lemma supported_features_land (self : EsphomeClimateDevice) :
  Z.land (supported_features self) SUPPORT_TARGET_TEMPERATURE =
    (if ClimateInfo.supports_two_point_target_temperature (_static_info self)
     then 0 else SUPPORT_TARGET_TEMPERATURE) /\
  Z.land (supported_features self) SUPPORT_AWAY_MODE =
    (if ClimateInfo.supports_away (_static_info self)
     then SUPPORT_AWAY_MODE else 0).
Proof using flags_disjoint.
  pose proof flags_disjoint as H. clear flags_disjoint.
  repeat match goal with
         | H : disjoint_flags (_ :: _) = true |- _ =>
             apply disjoint_flags_cons in H as (? & ? & H)
         end.
  repeat match goal with
         | H : Forall _ (_ :: _) |- _ =>
             apply Forall_cons in H as [? H]
         end.
  cbn beta in *. unfold supported_features.
  destruct (ClimateInfo.supports_two_point_target_temperature _),
           (ClimateInfo.supports_away _); split; flag_bits.
Qed.

(** X13: the feature mask tells the capabilities apart: two entities have
    the same [supported_features] exactly when they agree both on the
    two-point target and on the away mode. *)
Theorem supported_features_injective (self self' : EsphomeClimateDevice) :
  supported_features self = supported_features self' <->
  ClimateInfo.supports_two_point_target_temperature (_static_info self) =
    ClimateInfo.supports_two_point_target_temperature (_static_info self') /\
  ClimateInfo.supports_away (_static_info self) =
    ClimateInfo.supports_away (_static_info self').
Proof using flags_disjoint.
  split.
  - intros Heq.
    destruct (supported_features_land self) as [Ht Ha].
    destruct (supported_features_land self') as [Ht' Ha'].
    rewrite Heq in Ht, Ha. rewrite Ht' in Ht. rewrite Ha' in Ha.
    pose proof flags_disjoint as H.
    repeat match goal with
           | H : disjoint_flags (_ :: _) = true |- _ =>
               apply disjoint_flags_cons in H as (? & _ & H)
           end.
    destruct (ClimateInfo.supports_two_point_target_temperature _),
             (ClimateInfo.supports_two_point_target_temperature _),
             (ClimateInfo.supports_away _), (ClimateInfo.supports_away _);
      split; congruence.
  - intros [Ht Ha]. unfold supported_features. rewrite Ht, Ha. reflexivity.
Qed.

End Platform.

(** ** The platform at Home Assistant's constants *)

Lemma HA_modes_distinct :
  NoDup (ha_modes HA.STATE_OFF HA.STATE_AUTO HA.STATE_COOL HA.STATE_HEAT).
Proof. apply (bool_decide_unpack _). vm_compute. exact I. Defined.

(** One tenth is the quotient of 1.0 by 10.0. *)
Example precision_tenths_is_a_tenth :
  SFdiv PyFloat.prec PyFloat.emax PRECISION_WHOLE
        (S754_finite false 5629499534213120 (-49)) = PRECISION_TENTHS.
Proof. vm_compute. reflexivity. Qed.

Example precision_constants_are_binary64 :
  forallb PyFloat.is_binary64
          [PRECISION_WHOLE; PRECISION_HALVES; PRECISION_TENTHS;
           Sample.step_f32_tenth] = true.
Proof. vm_compute. reflexivity. Qed.

(** A device reports its step as a single-precision 0.1; the host sees the
    double-precision 0.1. *)
Example sample_target_temperature_step :
  target_temperature_step Sample.dev = PRECISION_TENTHS.
Proof. vm_compute. reflexivity. Qed.

Example round_ties_to_even :
  PyFloat.round (S754_finite false 4503599627370496 (-54)) 1 =
  S754_finite false 7205759403792794 (-55).
Proof. vm_compute. reflexivity. Qed.

Example sample_getters_without_state :
  current_operation HA.STATE_OFF HA.STATE_AUTO HA.STATE_COOL HA.STATE_HEAT
    Sample.dev_without_state = Ok None /\
  current_temperature Sample.dev_without_state = None /\
  is_away_mode_on Sample.dev_without_state = None.
Proof. repeat split. Qed.

Example sample_getters_with_state :
  current_operation HA.STATE_OFF HA.STATE_AUTO HA.STATE_COOL HA.STATE_HEAT
    Sample.dev = Ok (Some "heat"%string) /\
  current_temperature Sample.dev = None /\
  target_temperature Sample.dev =
    Some (S754_finite false 5910974510923776 (-48)) /\
  is_away_mode_on Sample.dev = Some false.
Proof. vm_compute. repeat split. Qed.

Example sample_precision : precision Sample.dev = PRECISION_TENTHS.
Proof. vm_compute. reflexivity. Qed.

Example sample_supported_features :
  supported_features HA.SUPPORT_OPERATION_MODE HA.SUPPORT_TARGET_TEMPERATURE
    HA.SUPPORT_TARGET_TEMPERATURE_LOW HA.SUPPORT_TARGET_TEMPERATURE_HIGH
    HA.SUPPORT_AWAY_MODE Sample.dev = 1153.
Proof. reflexivity. Qed.

Example sample_operation_list :
  operation_list HA.STATE_OFF HA.STATE_AUTO HA.STATE_COOL HA.STATE_HEAT
    Sample.dev = Ok ["off"; "heat"; "auto"]%string.
Proof. vm_compute. reflexivity. Qed.

Example sample_set_temperature :
  async_set_temperature HA.STATE_OFF HA.STATE_AUTO HA.STATE_COOL HA.STATE_HEAT
    HA.ATTR_OPERATION_MODE HA.ATTR_TEMPERATURE HA.ATTR_TARGET_TEMP_LOW
    HA.ATTR_TARGET_TEMP_HIGH Sample.kwargs Sample.dev =
  (Ok tt,
   {| _static_info := Sample.info;
      _state := Some Sample.state_nan;
      _client :=
        {| APIClient.commands :=
             [ {[ "key" := VInt 7;
                  "mode" := VMode HEAT;
                  "target_temperature" :=
                    VFloat (S754_finite false 6051711999279104 (-48)) ]} ] |}
   |}).
Proof. vm_compute. reflexivity. Qed.

(** *** The theorems at the sample entity *)

Ltac among := apply list_elem_of_In; cbn; auto.

Lemma climate_mode_translation_inverse_at_cool :
  (exists m : ClimateMode,
     _ha_climate_mode_to_esphome
       HA.STATE_OFF HA.STATE_AUTO HA.STATE_COOL HA.STATE_HEAT (VStr "cool")
     = Ok m /\
     _esphome_climate_mode_to_ha
       HA.STATE_OFF HA.STATE_AUTO HA.STATE_COOL HA.STATE_HEAT m
     = Ok "cool"%string) /\
  (exists s : string,
     s ∈ ha_modes HA.STATE_OFF HA.STATE_AUTO HA.STATE_COOL HA.STATE_HEAT /\
     _esphome_climate_mode_to_ha
       HA.STATE_OFF HA.STATE_AUTO HA.STATE_COOL HA.STATE_HEAT COOL
     = Ok s /\
     _ha_climate_mode_to_esphome
       HA.STATE_OFF HA.STATE_AUTO HA.STATE_COOL HA.STATE_HEAT (VStr s)
     = Ok COOL).
Proof.
  destruct (climate_mode_translation_inverse
              HA.STATE_OFF HA.STATE_AUTO HA.STATE_COOL HA.STATE_HEAT
              HA_modes_distinct) as [Hs Hm].
  split; [apply Hs; among | apply Hm].
Defined.

Lemma supported_features_flags_at_sample :
  let r :=
    supported_features HA.SUPPORT_OPERATION_MODE HA.SUPPORT_TARGET_TEMPERATURE
      HA.SUPPORT_TARGET_TEMPERATURE_LOW HA.SUPPORT_TARGET_TEMPERATURE_HIGH
      HA.SUPPORT_AWAY_MODE Sample.dev in
  has_flag r HA.SUPPORT_OPERATION_MODE /\
  has_flag r HA.SUPPORT_TARGET_TEMPERATURE /\
  ~ has_flag r HA.SUPPORT_TARGET_TEMPERATURE_LOW /\
  ~ has_flag r HA.SUPPORT_TARGET_TEMPERATURE_HIGH /\
  has_flag r HA.SUPPORT_AWAY_MODE.
Proof.
  pose proof (supported_features_flags
                HA.SUPPORT_OPERATION_MODE HA.SUPPORT_TARGET_TEMPERATURE
                HA.SUPPORT_TARGET_TEMPERATURE_LOW
                HA.SUPPORT_TARGET_TEMPERATURE_HIGH HA.SUPPORT_AWAY_MODE
                eq_refl Sample.dev) as H.
  cbv zeta in *.
  change (ClimateInfo.supports_two_point_target_temperature
            (_static_info Sample.dev)) with false in H.
  cbv iota in H.
  destruct H as (Hop & (Ht & Hlow & _ & Hhigh & _) & Haway & _).
  exact (conj Hop (conj Ht (conj Hlow (conj Hhigh (proj2 Haway eq_refl))))).
Defined.

Lemma operation_list_at_sample :
  exists (l : list string) (s : string),
    operation_list HA.STATE_OFF HA.STATE_AUTO HA.STATE_COOL HA.STATE_HEAT
      Sample.dev = Ok l /\
    l !! 1%nat = Some s /\
    _esphome_climate_mode_to_ha
      HA.STATE_OFF HA.STATE_AUTO HA.STATE_COOL HA.STATE_HEAT HEAT = Ok s.
Proof.
  pose proof (operation_list_translates_supported_modes
                HA.STATE_OFF HA.STATE_AUTO HA.STATE_COOL HA.STATE_HEAT
                Sample.dev) as H.
  cbv zeta in H. destruct H as (l & Hl & _ & _ & Hi).
  destruct (Hi 1%nat HEAT eq_refl) as (s & Hs & Hm).
  exists l, s. exact (conj Hl (conj Hs Hm)).
Defined.

Lemma precision_selects_coarsest_at_sample :
  PyFloat.le (precision Sample.dev) Sample.step_f32_tenth = true /\
  PyFloat.le PRECISION_TENTHS (precision Sample.dev) = true.
Proof.
  pose proof (precision_selects_coarsest Sample.dev) as H.
  cbv zeta in H. destruct H as (_ & H & _).
  apply (H PRECISION_TENTHS); [among | vm_compute; reflexivity].
Defined.

Lemma command_methods_pass_through_at_sample :
  exists data : gmap string value,
    fst (async_set_temperature
           HA.STATE_OFF HA.STATE_AUTO HA.STATE_COOL HA.STATE_HEAT
           HA.ATTR_OPERATION_MODE HA.ATTR_TEMPERATURE HA.ATTR_TARGET_TEMP_LOW
           HA.ATTR_TARGET_TEMP_HIGH Sample.kwargs Sample.dev) = Ok tt /\
    sent Sample.dev
         (snd (async_set_temperature
                 HA.STATE_OFF HA.STATE_AUTO HA.STATE_COOL HA.STATE_HEAT
                 HA.ATTR_OPERATION_MODE HA.ATTR_TEMPERATURE
                 HA.ATTR_TARGET_TEMP_LOW HA.ATTR_TARGET_TEMP_HIGH
                 Sample.kwargs Sample.dev)) [data] /\
    data !! "mode" = Some (VMode HEAT) /\
    data !! "target_temperature_low" = None /\
    fst (async_set_operation_mode
           HA.STATE_OFF HA.STATE_AUTO HA.STATE_COOL HA.STATE_HEAT
           (VStr "fan_only") Sample.dev) = Raise (KeyError (VStr "fan_only")) /\
    sent Sample.dev
         (snd (async_set_operation_mode
                 HA.STATE_OFF HA.STATE_AUTO HA.STATE_COOL HA.STATE_HEAT
                 (VStr "fan_only") Sample.dev)) [].
Proof.
  pose proof (command_methods_pass_through
                HA.STATE_OFF HA.STATE_AUTO HA.STATE_COOL HA.STATE_HEAT
                HA.ATTR_OPERATION_MODE HA.ATTR_TEMPERATURE
                HA.ATTR_TARGET_TEMP_LOW HA.ATTR_TARGET_TEMP_HIGH
                Sample.dev) as H.
  cbv zeta in H. destruct H as (Hset & _ & _ & _ & Hother & _).
  destruct (Hother (VStr "fan_only")) as [Hraise Hnone].
  { intros (s & [= <-] & Hs). apply list_elem_of_In in Hs. cbn in Hs.
    intuition discriminate. }
  destruct (Hset Sample.kwargs) as (data & Hok & Hsent & Hin & _).
  - intros v Hv. vm_compute in Hv. injection Hv as <-.
    exists "heat"%string. split; [reflexivity | among].
  - exists data. split; [exact Hok |]. split; [exact Hsent |]. split.
    + apply (Hin "mode"%string (Some (VMode HEAT))).
      apply list_elem_of_In. right. left. vm_compute. reflexivity.
    + split.
      * apply (Hin "target_temperature_low"%string None).
        apply list_elem_of_In. right. right. right. left.
        vm_compute. reflexivity.
      * exact (conj Hraise Hnone).
Defined.

Lemma unsupported_mode_fails_at_dry :
  _ha_climate_mode_to_esphome
    HA.STATE_OFF HA.STATE_AUTO HA.STATE_COOL HA.STATE_HEAT (VStr "dry")
  = Raise (KeyError (VStr "dry")) /\
  async_set_operation_mode
    HA.STATE_OFF HA.STATE_AUTO HA.STATE_COOL HA.STATE_HEAT (VStr "dry")
    Sample.dev
  = (Raise (KeyError (VStr "dry")), Sample.dev).
Proof.
  destruct (unsupported_mode_fails_before_command
              HA.STATE_OFF HA.STATE_AUTO HA.STATE_COOL HA.STATE_HEAT
              HA.ATTR_OPERATION_MODE HA.ATTR_TEMPERATURE
              HA.ATTR_TARGET_TEMP_LOW HA.ATTR_TARGET_TEMP_HIGH) as [_ H].
  destruct (H (VStr "dry")) as (Hraise & Hop & _).
  - intros (s & [= <-] & Hs). apply list_elem_of_In in Hs. cbn in Hs.
    intuition discriminate.
  - split; [exact Hraise | apply Hop].
Defined.

(** *** Where the description says more than the code does *)

(** With a state present whose current temperature is a NaN, the getters do
    not all return their state field: [current_temperature] returns [None]. *)
Lemma getters_do_not_all_return_the_state_field :
  ~ (current_operation
       HA.STATE_OFF HA.STATE_AUTO HA.STATE_COOL HA.STATE_HEAT Sample.dev
     = Ok (Some HA.STATE_HEAT) /\
     current_temperature Sample.dev =
       Some (ClimateState.current_temperature Sample.state_nan) /\
     target_temperature Sample.dev =
       Some (ClimateState.target_temperature Sample.state_nan) /\
     target_temperature_low Sample.dev =
       Some (ClimateState.target_temperature_low Sample.state_nan) /\
     target_temperature_high Sample.dev =
       Some (ClimateState.target_temperature_high Sample.state_nan) /\
     is_away_mode_on Sample.dev =
       Some (ClimateState.away Sample.state_nan)).
Proof. intros (_ & H & _). vm_compute in H. discriminate H. Qed.

(** Asked for a mode the table does not know, [async_set_operation_mode]
    does not perform one [climate_command] call: it performs none. *)
Lemma set_operation_mode_dry_sends_no_command :
  ~ (exists data : gmap string value,
       sent Sample.dev
            (snd (async_set_operation_mode
                    HA.STATE_OFF HA.STATE_AUTO HA.STATE_COOL HA.STATE_HEAT
                    (VStr "dry") Sample.dev)) [data]).
Proof. intros [data H]. vm_compute in H. discriminate H. Qed.

(** *** The further properties at sample inputs *)

Abbreviation HA_ha_climate_mode_to_esphome :=
  (_ha_climate_mode_to_esphome
     HA.STATE_OFF HA.STATE_AUTO HA.STATE_COOL HA.STATE_HEAT).
Abbreviation HA_operation_list :=
  (operation_list HA.STATE_OFF HA.STATE_AUTO HA.STATE_COOL HA.STATE_HEAT).
Abbreviation HA_current_operation :=
  (current_operation HA.STATE_OFF HA.STATE_AUTO HA.STATE_COOL HA.STATE_HEAT).
Abbreviation HA_async_set_operation_mode :=
  (async_set_operation_mode
     HA.STATE_OFF HA.STATE_AUTO HA.STATE_COOL HA.STATE_HEAT).
Abbreviation HA_async_set_temperature :=
  (async_set_temperature
     HA.STATE_OFF HA.STATE_AUTO HA.STATE_COOL HA.STATE_HEAT
     HA.ATTR_OPERATION_MODE HA.ATTR_TEMPERATURE HA.ATTR_TARGET_TEMP_LOW
     HA.ATTR_TARGET_TEMP_HIGH).
Abbreviation HA_supported_features :=
  (supported_features
     HA.SUPPORT_OPERATION_MODE HA.SUPPORT_TARGET_TEMPERATURE
     HA.SUPPORT_TARGET_TEMPERATURE_LOW HA.SUPPORT_TARGET_TEMPERATURE_HIGH
     HA.SUPPORT_AWAY_MODE).

Lemma precision_monotone_at_samples :
  PyFloat.le (precision Sample.dev) (precision Cases.dev_halves) = true.
Proof.
  apply (precision_monotone Sample.dev Cases.dev_halves).
  vm_compute. reflexivity.
Defined.

Lemma precision_idempotent_at_samples :
  precision Cases.dev_tenths = precision Sample.dev.
Proof.
  apply (precision_idempotent Sample.dev Cases.dev_tenths).
  vm_compute. reflexivity.
Defined.

Lemma commands_keep_log_addressed_at_sample :
  addressed_to_key (snd (async_turn_away_mode_off Cases.dev_after_command)) /\
  ClimateInfo.key
    (_static_info (snd (async_turn_away_mode_off Cases.dev_after_command))) =
  ClimateInfo.key (_static_info Cases.dev_after_command).
Proof.
  apply (commands_keep_log_addressed
           HA.STATE_OFF HA.STATE_AUTO HA.STATE_COOL HA.STATE_HEAT
           HA.ATTR_OPERATION_MODE HA.ATTR_TEMPERATURE HA.ATTR_TARGET_TEMP_LOW
           HA.ATTR_TARGET_TEMP_HIGH ∅ VNone Cases.dev_after_command).
  - unfold addressed_to_key. cbn. constructor; [| constructor].
    vm_compute. reflexivity.
  - right. right. right. reflexivity.
Defined.

Lemma set_temperature_ignores_entity_id :
  HA_async_set_temperature Cases.kwargs_with_entity_id Sample.dev =
  HA_async_set_temperature Sample.kwargs Sample.dev.
Proof.
  apply set_temperature_ignores_other_keywords; vm_compute; reflexivity.
Defined.

Lemma set_temperature_entity_id_only :
  fst (HA_async_set_temperature Cases.kwargs_entity_id_only Sample.dev)
  = Ok tt /\
  sent Sample.dev
       (snd (HA_async_set_temperature Cases.kwargs_entity_id_only Sample.dev))
       [ {[ "key" := VInt (ClimateInfo.key (_static_info Sample.dev)) ]} ].
Proof.
  apply set_temperature_without_keywords; vm_compute; reflexivity.
Defined.

Lemma set_temperature_with_mode_only_at_cool :
  HA_async_set_temperature Cases.kwargs_mode_only Sample.dev =
  HA_async_set_operation_mode (VStr "cool") Sample.dev.
Proof.
  apply set_temperature_with_mode_only; vm_compute; reflexivity.
Defined.

Lemma ha_to_esphome_injective_at_cool :
  HA_ha_climate_mode_to_esphome (VStr "cool") = Ok COOL /\
  VStr "cool" = VStr HA.STATE_COOL.
Proof.
  split; [vm_compute; reflexivity |].
  apply (ha_to_esphome_injective
           HA.STATE_OFF HA.STATE_AUTO HA.STATE_COOL HA.STATE_HEAT
           (VStr "cool") (VStr HA.STATE_COOL) COOL);
    vm_compute; reflexivity.
Defined.

Lemma current_operation_in_operation_list_at_sample :
  exists (s : string) (l : list string),
    HA_current_operation Sample.dev = Ok (Some s) /\
    HA_operation_list Sample.dev = Ok l /\
    s ∈ l.
Proof.
  apply (current_operation_in_operation_list
           HA.STATE_OFF HA.STATE_AUTO HA.STATE_COOL HA.STATE_HEAT
           Sample.dev Sample.state_nan).
  - reflexivity.
  - among.
Defined.

Lemma offered_operation_can_be_set_at_auto :
  exists m : ClimateMode,
    m ∈ ClimateInfo.supported_modes (_static_info Sample.dev) /\
    _esphome_climate_mode_to_ha
      HA.STATE_OFF HA.STATE_AUTO HA.STATE_COOL HA.STATE_HEAT m
    = Ok "auto"%string /\
    fst (HA_async_set_operation_mode (VStr "auto") Sample.dev) = Ok tt /\
    sent Sample.dev
         (snd (HA_async_set_operation_mode (VStr "auto") Sample.dev))
         [ <["mode" := VMode m]>
             {[ "key" := VInt (ClimateInfo.key (_static_info Sample.dev)) ]} ].
Proof.
  apply (offered_operation_can_be_set
           HA.STATE_OFF HA.STATE_AUTO HA.STATE_COOL HA.STATE_HEAT
           HA_modes_distinct Sample.dev ["off"; "heat"; "auto"]%string).
  - vm_compute. reflexivity.
  - among.
Defined.

Lemma operation_list_NoDup_at_sample :
  NoDup ["off"; "heat"; "auto"]%string <->
  NoDup (ClimateInfo.supported_modes (_static_info Sample.dev)).
Proof.
  apply (operation_list_NoDup
           HA.STATE_OFF HA.STATE_AUTO HA.STATE_COOL HA.STATE_HEAT
           HA_modes_distinct Sample.dev).
  vm_compute. reflexivity.
Defined.

Lemma supported_features_injective_at_samples :
  HA_supported_features Sample.dev <> HA_supported_features Cases.dev_halves /\
  HA_supported_features Sample.dev =
  HA_supported_features Sample.dev_without_state.
Proof.
  split.
  - intros Heq.
    apply (supported_features_injective
             HA.SUPPORT_OPERATION_MODE HA.SUPPORT_TARGET_TEMPERATURE
             HA.SUPPORT_TARGET_TEMPERATURE_LOW
             HA.SUPPORT_TARGET_TEMPERATURE_HIGH HA.SUPPORT_AWAY_MODE
             eq_refl Sample.dev Cases.dev_halves) in Heq as [Htwo _].
    discriminate Htwo.
  - apply (supported_features_injective
             HA.SUPPORT_OPERATION_MODE HA.SUPPORT_TARGET_TEMPERATURE
             HA.SUPPORT_TARGET_TEMPERATURE_LOW
             HA.SUPPORT_TARGET_TEMPERATURE_HIGH HA.SUPPORT_AWAY_MODE
             eq_refl Sample.dev Sample.dev_without_state).
    split; reflexivity.
Defined.

Lemma current_operation_round_trip_at_sample :
  fst (HA_async_set_operation_mode (VStr "heat") Sample.dev) = Ok tt /\
  sent Sample.dev
       (snd (HA_async_set_operation_mode (VStr "heat") Sample.dev))
       [ <["mode" := VMode (ClimateState.mode Sample.state_nan)]>
           {[ "key" := VInt (ClimateInfo.key (_static_info Sample.dev)) ]} ].
Proof.
  apply (current_operation_round_trip
           HA.STATE_OFF HA.STATE_AUTO HA.STATE_COOL HA.STATE_HEAT
           HA_modes_distinct Sample.dev Sample.state_nan).
  - reflexivity.
  - vm_compute. reflexivity.
Defined.
